(** * mcphost-server: the orchestration loop, the tool-server registry and
      the history window, embedded from [server/root.go] and its two
      sibling files of package [server].

    Go strings are byte strings: they are [string] here.  Go [int] is
    64 bits wide and is [Z]; the only arithmetic the code does on it is
    [len(modelMessages) - messageWindow], whose range is discussed where
    it is used.  Maps with string keys are stdpp [gmap string _]; where
    the code ranges over a map, the embedding takes the sequence of
    entries in the order the range visited them. *)

From Stdlib Require Import ZArith Lia Ascii String List.
From stdpp Require Import base option list gmap strings.

Local Open Scope Z_scope.

(** ** Go's [strings] and [strconv], as far as [package server] calls them *)

Module GoStrings.

(** [strings.HasPrefix s prefix]. *)
Fixpoint HasPrefix (s prefix : string) : bool :=
  match prefix, s with
  | EmptyString, _ => true
  | String p prefix', String c s' => Ascii.eqb c p && HasPrefix s' prefix'
  | String _ _, EmptyString => false
  end.

(** [strings.Contains s substr]. *)
Fixpoint Contains (s substr : string) : bool :=
  HasPrefix s substr ||
  match s with
  | EmptyString => false
  | String _ s' => Contains s' substr
  end.

(** [strings.HasSuffix s suffix]. *)
Definition HasSuffix (s suffix : string) : bool :=
  let n := String.length s in
  let k := String.length suffix in
  (k <=? n)%nat && String.eqb (String.substring (n - k) k s) suffix.

(** The body of [genSplit] for a non-empty separator: scan [s] from the
    left, cut at every leftmost occurrence of [sep] and resume behind it.
    [skip] counts the bytes of a separator just matched that are still
    to be stepped over. *)
Fixpoint splitFrom (sep : string) (skip : nat) (s : string) : list string :=
  match s with
  | EmptyString => [EmptyString]
  | String c s' =>
      match skip with
      | S k => splitFrom sep k s'
      | O =>
          if HasPrefix s sep
          then EmptyString :: splitFrom sep (String.length sep - 1) s'
          else match splitFrom sep O s' with
               | seg :: segs => String c seg :: segs
               | [] => [String c EmptyString]
               end
      end
  end.

(** [strings.Split s sep]; with an empty separator Go explodes the string
    into its characters (bytes here; the code never passes one). *)
Definition Split (s sep : string) : list string :=
  match sep with
  | EmptyString => (fun c => String c EmptyString) <$> list_ascii_of_string s
  | String _ _ => splitFrom sep O s
  end.

(** [strings.Count s substr] for a non-empty [substr]: the number of
    non-overlapping occurrences, leftmost first. *)
Fixpoint countFrom (sep : string) (skip : nat) (s : string) : nat :=
  match s with
  | EmptyString => O
  | String c s' =>
      match skip with
      | S k => countFrom sep k s'
      | O =>
          if HasPrefix s sep
          then S (countFrom sep (String.length sep - 1) s')
          else countFrom sep O s'
      end
  end.

Definition Count (s substr : string) : nat :=
  match substr with
  | EmptyString => S (String.length s)
  | String _ _ => countFrom substr O s
  end.

(** White space as [unicode.IsSpace] defines it, on the bytes of a UTF-8
    string.  Below 0x80 these are the bytes 9 to 13 and 32; above, the
    runes U+0085 and U+00A0 (two bytes, led by 0xC2) and U+1680,
    U+2000 to U+200A, U+2028, U+2029, U+202F, U+205F and U+3000 (three
    bytes).  UTF-8 admits one encoding per rune, so a rune is white space
    exactly when its bytes are one of these sequences. *)
Definition asciiSpace (a : ascii) : bool :=
  let n := nat_of_ascii a in
  ((9 <=? n) && (n <=? 13) || (n =? 32))%nat.

Definition space2 (a b : ascii) : bool :=
  let a := nat_of_ascii a in
  let b := nat_of_ascii b in
  ((a =? 194) && ((b =? 133) || (b =? 160)))%nat.

Definition space3 (a b c : ascii) : bool :=
  let a := nat_of_ascii a in
  let b := nat_of_ascii b in
  let c := nat_of_ascii c in
  ((a =? 225) && (b =? 154) && (c =? 128)
   || (a =? 226) && (b =? 128)
      && ((128 <=? c) && (c <=? 138) || (c =? 168) || (c =? 169) || (c =? 175))
   || (a =? 226) && (b =? 129) && (c =? 159)
   || (a =? 227) && (b =? 128) && (c =? 128))%nat.

(** [strings.TrimLeftFunc s unicode.IsSpace] on the bytes of [s]: runes
    are decoded from the left, and the first that is not white space (an
    invalid byte decodes to U+FFFD, which is not) ends the trimming. *)
Fixpoint trimFront (l : list ascii) : list ascii :=
  match l with
  | [] => []
  | a :: l1 =>
      if asciiSpace a then trimFront l1
      else match l1 with
           | b :: l2 =>
               if space2 a b then trimFront l2
               else match l2 with
                    | c :: l3 => if space3 a b c then trimFront l3 else l
                    | [] => l
                    end
           | [] => l
           end
  end.

(** [strings.TrimRightFunc s unicode.IsSpace] on the bytes of [s] in
    reverse order: the last rune is decoded from the end. *)
Fixpoint trimBack (r : list ascii) : list ascii :=
  match r with
  | [] => []
  | c :: r1 =>
      if asciiSpace c then trimBack r1
      else match r1 with
           | b :: r2 =>
               if space2 b c then trimBack r2
               else match r2 with
                    | a :: r3 => if space3 a b c then trimBack r3 else r
                    | [] => r
                    end
           | [] => r
           end
  end.

(** [strings.TrimSpace]: white space is trimmed on the left, then on the
    right. *)
Definition TrimSpace (s : string) : string :=
  string_of_list_ascii
    (rev (trimBack (rev (trimFront (list_ascii_of_string s))))).

(** *** [strconv.Atoi] on a 64-bit platform *)

Inductive NumError := ErrSyntax | ErrRange.

Definition digitOf (c : ascii) : option Z :=
  let n := Z.of_nat (nat_of_ascii c) in
  if (48 <=? n) && (n <=? 57) then Some (n - 48) else None.

Definition maxUint64 : Z := 2 ^ 64 - 1.

(** [ParseUint s 10 64] behind the sign: the first bad byte is a syntax
    error, the first overflow a range error with the largest value. *)
Fixpoint parseUintFrom (n : Z) (s : string) : Z * option NumError :=
  match s with
  | EmptyString => (n, None)
  | String c s' =>
      match digitOf c with
      | None => (0, Some ErrSyntax)
      | Some d =>
          if n >=? maxUint64 / 10 + 1 then (maxUint64, Some ErrRange)
          else if n * 10 + d >? maxUint64 then (maxUint64, Some ErrRange)
          else parseUintFrom (n * 10 + d) s'
      end
  end.

Definition ParseUint (s : string) : Z * option NumError :=
  match s with
  | EmptyString => (0, Some ErrSyntax)
  | _ => parseUintFrom 0 s
  end.

(** [ParseInt s 10 0]. *)
Definition ParseInt (s : string) : Z * option NumError :=
  match s with
  | EmptyString => (0, Some ErrSyntax)
  | String c s' =>
      let neg := Ascii.eqb c "-" in
      let digits := if neg || Ascii.eqb c "+" then s' else s in
      let '(un, err) := ParseUint digits in
      match err with
      | Some ErrSyntax => (0, Some ErrSyntax)
      | _ =>
          let cutoff := 2 ^ 63 in
          if negb neg && (un >=? cutoff) then (cutoff - 1, Some ErrRange)
          else if neg && (un >? cutoff) then (- cutoff, Some ErrRange)
          else (if neg then - un else un, None)
      end
  end.

(** [strconv.Atoi]: the fast path of the library (fewer than 19 bytes)
    and the slow path agree on every input, so one definition serves.
    The value comes back with the error, and it is [0] on a syntax
    error. *)
Definition Atoi (s : string) : Z * option NumError := ParseInt s.

End GoStrings.

Import GoStrings.

(** ** Data model *)

(** One element of [mcp.CallToolResult.Content], which Go holds as
    [interface{}]: a JSON object ([map[string]interface{}]) with its fields
    already rendered the way [fmt.Sprintf "%v"] prints them, or any other
    value. *)
Inductive RawItem :=
| ItemObject (fields : gmap string string)
| ItemOther (rendering : string).

(** Modelled from the spec: the declaration of [history.ContentBlock]
    ([pkg/history] is not among the sources).  The fields are the ones
    [runPrompt] writes; [Content] is an [interface{}] that holds nothing, a
    slice of blocks (the error path) or the raw tool result (the success
    path). *)
Record BlockOf (P : Type) := Block {
  Type_ : string;
  Text : string;
  ID : string;
  ToolUseID : string;
  Name : string;
  Input : string;
  Content : P
}.
Arguments Block {P}.
Arguments Type_ {P}.
Arguments Text {P}.
Arguments ID {P}.
Arguments ToolUseID {P}.
Arguments Name {P}.
Arguments Input {P}.
Arguments Content {P}.

#[warnings="-register-all"]
Inductive Payload :=
| NoPayload
| BlockPayload (blocks : list (BlockOf Payload))
| RawPayload (items : list RawItem).

Abbreviation ContentBlock := (BlockOf Payload).

(** Modelled from the spec: the declaration of [history.HistoryMessage],
    a Turn: a role and its content blocks. *)
Record HistoryMessage := Turn {
  Role : string;
  TurnContent : list ContentBlock
}.

(** The zero value of a [ContentBlock]; composite literals in the source
    name only the fields they set. *)
Definition zeroBlock : ContentBlock :=
  Block "" "" "" "" "" "" NoPayload.

Definition textBlock (text : string) : ContentBlock :=
  Block "text" text "" "" "" "" NoPayload.

Definition toolUseBlock (id name input : string) : ContentBlock :=
  Block "tool_use" "" id "" name input NoPayload.

(** The block of the error path: a [tool_result] whose [Content] is one
    text block with the error message. *)
Definition errorResultBlock (id toolName err : string) : ContentBlock :=
  let errMsg := "Error calling tool " +:+ toolName +:+ ": " +:+ err in
  Block "tool_result" "" "" id "" "" (BlockPayload [textBlock errMsg]).

(** The flattened text of a raw result: the ["text"] field of every item
    that is an object carrying one, each followed by a space. *)
Definition resultText (content : list RawItem) : string :=
  foldl (fun text item =>
           match item with
           | ItemObject contentMap =>
               match contentMap !! "text" with
               | Some t => text +:+ t +:+ " "
               | None => text
               end
           | ItemOther _ => text
           end) "" content.

(** The block of the success path ([resultBlock]). *)
Definition toolResultBlock (id : string) (content : list RawItem)
    : ContentBlock :=
  Block "tool_result" (TrimSpace (resultText content)) "" id "" ""
        (RawPayload content).

Definition isToolUse (b : ContentBlock) : bool := String.eqb (Type_ b) "tool_use".
Definition isToolResult (b : ContentBlock) : bool :=
  String.eqb (Type_ b) "tool_result".

(** [mcp.CallToolResult]: [Content] is a slice, [None] when it is [nil]. *)
Record CallToolResult := { ResultContent : option (list RawItem) }.

(** [llm.Schema], [llm.Tool] and [mcp.Tool]; schema properties are kept as
    rendered JSON. *)
Record Schema := {
  SchemaType : string;
  Properties : gmap string string;
  Required : list string
}.

Record Tool := {
  ToolName : string;
  Description : string;
  InputSchema : Schema
}.

(** A connection to a tool server: the process that
    [mcpclient.NewStdioMCPClient] started. *)
Record StdioMCPClient := { pid : nat; command : string }.

Record ServerConfig := {
  Command : string;
  Args : list string;
  Env : list (string * string)
}.

(** [MCPConfig.MCPServers], in the order in which [range] visits it. *)
Record MCPConfig := { MCPServers : list (string * ServerConfig) }.

Record Provider := { providerName : string; providerModel : string }.

Inductive Level := Info | Warn | Error.

(** The package-level variables of [root.go], with the log: one entry per
    [log.Info], [log.Warn] or [log.Error] call, level and message. *)
Record Globals := {
  configFile : string;
  messageWindow : Z;
  modelFlag : string;
  anthropicAPIKey : string;
  anthropicBaseURL : string;
  openaiBaseURL : string;
  openaiAPIKey : string;
  modelProvider : option Provider;
  modelMcpClients : gmap string StdioMCPClient;
  modelTools : list Tool;
  modelMessages : list HistoryMessage;
  logged : list (Level * string)
}.

(** The variables as their declarations initialise them:
    [messageWindow int = 10], everything else zero. *)
Definition initialGlobals : Globals :=
  {| configFile := ""; messageWindow := 10; modelFlag := "";
     anthropicAPIKey := ""; anthropicBaseURL := "";
     openaiBaseURL := ""; openaiAPIKey := "";
     modelProvider := None; modelMcpClients := ∅;
     modelTools := []; modelMessages := []; logged := [] |}.

Definition log (lvl : Level) (msg : string) (g : Globals) : Globals :=
  {| configFile := configFile g; messageWindow := messageWindow g;
     modelFlag := modelFlag g; anthropicAPIKey := anthropicAPIKey g;
     anthropicBaseURL := anthropicBaseURL g;
     openaiBaseURL := openaiBaseURL g; openaiAPIKey := openaiAPIKey g;
     modelProvider := modelProvider g;
     modelMcpClients := modelMcpClients g;
     modelTools := modelTools g; modelMessages := modelMessages g;
     logged := logged g ++ [(lvl, msg)] |}.

Definition setMessages (msgs : list HistoryMessage) (g : Globals) : Globals :=
  {| configFile := configFile g; messageWindow := messageWindow g;
     modelFlag := modelFlag g; anthropicAPIKey := anthropicAPIKey g;
     anthropicBaseURL := anthropicBaseURL g;
     openaiBaseURL := openaiBaseURL g; openaiAPIKey := openaiAPIKey g;
     modelProvider := modelProvider g;
     modelMcpClients := modelMcpClients g;
     modelTools := modelTools g; modelMessages := msgs;
     logged := logged g |}.

Definition setTools (tools : list Tool) (g : Globals) : Globals :=
  {| configFile := configFile g; messageWindow := messageWindow g;
     modelFlag := modelFlag g; anthropicAPIKey := anthropicAPIKey g;
     anthropicBaseURL := anthropicBaseURL g;
     openaiBaseURL := openaiBaseURL g; openaiAPIKey := openaiAPIKey g;
     modelProvider := modelProvider g;
     modelMcpClients := modelMcpClients g;
     modelTools := tools; modelMessages := modelMessages g;
     logged := logged g |}.

(** The package variables without the log. *)
Definition unlogged (g : Globals) : Globals :=
  {| configFile := configFile g; messageWindow := messageWindow g;
     modelFlag := modelFlag g; anthropicAPIKey := anthropicAPIKey g;
     anthropicBaseURL := anthropicBaseURL g;
     openaiBaseURL := openaiBaseURL g; openaiAPIKey := openaiAPIKey g;
     modelProvider := modelProvider g;
     modelMcpClients := modelMcpClients g;
     modelTools := modelTools g; modelMessages := modelMessages g;
     logged := [] |}.

(** ** Environment and the HTTP handlers *)

(** The process environment; [os.Getenv] gives the empty string for a
    variable that is not set. *)
Definition Getenv (env : gmap string string) (key : string) : string :=
  default "" (env !! key).

(** [godotenv.Load]: the variables of the file are added to the
    environment, those already set win; [None] is a file that cannot be
    read or parsed. *)
Definition godotenvLoad (file : option (gmap string string))
    (env : gmap string string) : gmap string string * option string :=
  match file with
  | None => (env, Some "open .env: no such file or directory")
  | Some vars => (env ∪ vars, None)
  end.

Record Server := { port : Z }.

Definition NewServer (env : gmap string string) (g : Globals)
    : Server * Globals :=
  let '(port, err) := Atoi (Getenv env "MCP_SERVER_PORT") in
  match err with
  | Some _ => ({| port := 8115 |}, log Error "Failed to parse port" g)
  | None => ({| port := port |}, g)
  end.

(** [messageWindow, _ = strconv.Atoi(...)]: the value [Atoi] returns is
    stored whatever the error, which is dropped. *)
Definition LoadServerEnv (dotenv : option (gmap string string))
    (env : gmap string string) (g : Globals) : gmap string string * Globals :=
  let '(env, err) := godotenvLoad dotenv env in
  let g := match err with
           | Some _ => log Error "Failed to load environment variables" g
           | None => g
           end in
  let g :=
    {| configFile := Getenv env "MCP_CONFIG_PATH";
       messageWindow := fst (Atoi (Getenv env "MCP_MESSAGE_WINDOW"));
       modelFlag := Getenv env "MCP_MODEL";
       anthropicAPIKey := Getenv env "ANTHROPIC_API_KEY";
       anthropicBaseURL := Getenv env "ANTHROPIC_BASE_URL";
       openaiBaseURL := Getenv env "OPENAI_BASE_URL";
       openaiAPIKey := Getenv env "OPENAI_API_KEY";
       modelProvider := modelProvider g;
       modelMcpClients := modelMcpClients g;
       modelTools := modelTools g; modelMessages := modelMessages g;
       logged := logged g |} in
  (env, log Info "Environment variables loaded" g).

(** Go [int] arithmetic wraps around at 64 bits. *)
Definition wrapInt (z : Z) : Z := (z + 2 ^ 63) mod 2 ^ 64 - 2 ^ 63.

(** The slice expression [s[low:]]: a run-time panic ([None]) unless
    [0 <= low <= len(s)]. *)
Definition sliceFrom {A} (s : list A) (low : Z) : option (list A) :=
  if (low <? 0) || (Z.of_nat (length s) <? low) then None
  else Some (drop (Z.to_nat low) s).

(** [historyHandler], up to the turns it hands to [json.Marshal]
    ([returnMessages]); [None] is the panic of the slice expression. *)
Definition historyHandler (g : Globals)
    : Globals * option (list HistoryMessage) :=
  let g := log Info "History requested" g in
  let len := Z.of_nat (length (modelMessages g)) in
  if len >? messageWindow g
  then (g, sliceFrom (modelMessages g) (wrapInt (len - messageWindow g)))
  else (g, Some (modelMessages g)).

(** [toolHandler] serialises the catalog as it stands. *)
Definition toolHandler (g : Globals) : list Tool := modelTools g.

(** ** The tool-server registry *)

(** [mcpToolsToAnthropicTools]: one catalog entry per advertised tool, in
    order, named [serverName__tool]. *)
Definition mcpToolsToAnthropicTools (serverName : string)
    (mcpTools : list Tool) : list Tool :=
  (fun tool =>
     let namespacedName := serverName +:+ "__" +:+ ToolName tool in
     {| ToolName := namespacedName;
        Description := Description tool;
        InputSchema :=
          {| SchemaType := SchemaType (InputSchema tool);
             Properties := Properties (InputSchema tool);
             Required := Required (InputSchema tool) |} |}) <$> mcpTools.

(** The processes of the tool servers: the next process id and the set of
    connections that are open. *)
Record Procs := { nextPid : nat; live : gset nat }.

Record InitializeRequest := {
  ProtocolVersion : string;
  ClientName : string;
  ClientVersion : string
}.

Definition LATEST_PROTOCOL_VERSION : string := "2024-11-05".

Section Registry.

(** What the outside world decides: whether a server process starts,
    whether it answers the handshake, and what it advertises.  Each may
    depend on everything that happened before (the process table). *)
Variable startError : Procs -> string -> list string -> list string -> option string.
Variable initializeError : Procs -> StdioMCPClient -> InitializeRequest -> option string.
Variable listTools : StdioMCPClient -> string + list Tool.

(** The process environment, read for [LIB_NAME] and [LIB_VERSION]. *)
Variable env : gmap string string.

(** [mcpclient.NewStdioMCPClient]: on an error no process is left. *)
Definition NewStdioMCPClient (command : string) (envv args : list string)
    (P : Procs) : Procs * (string + StdioMCPClient) :=
  match startError P command envv args with
  | Some err => (P, inl err)
  | None =>
      let client := {| pid := nextPid P; command := command |} in
      ({| nextPid := S (nextPid P); live := {[pid client]} ∪ live P |},
       inr client)
  end.

(** [client.Initialize]: the handshake; the connection stays as it is. *)
Definition Initialize (client : StdioMCPClient) (req : InitializeRequest)
    (P : Procs) : Procs * option string :=
  (P, initializeError P client req).

(** [client.Close]; the code drops the error it may return. *)
Definition Close (client : StdioMCPClient) (P : Procs) : Procs :=
  {| nextPid := nextPid P; live := live P ∖ {[pid client]} |}.

(** [for _, c := range clients { c.Close() }]. *)
Definition closeAll (clients : gmap string StdioMCPClient) (P : Procs)
    : Procs :=
  foldr (fun kv P => Close kv.2 P) P (map_to_list clients).

(** [env = append(env, fmt.Sprintf("%s=%s", k, v))] over [server.Env]. *)
Definition launchEnv (server : ServerConfig) : list string :=
  (fun kv => kv.1 +:+ "=" +:+ kv.2) <$> Env server.

Definition initRequest : InitializeRequest :=
  {| ProtocolVersion := LATEST_PROTOCOL_VERSION;
     ClientName := Getenv env "LIB_NAME";
     ClientVersion := Getenv env "LIB_VERSION" |}.

(** The loop of [createMCPClients] over the servers still to register,
    with the [clients] map built so far. *)
Fixpoint registerServers (servers : list (string * ServerConfig))
    (clients : gmap string StdioMCPClient) (P : Procs) (g : Globals)
    : Procs * Globals * (string + gmap string StdioMCPClient) :=
  match servers with
  | [] => (P, g, inr clients)
  | (name, server) :: servers' =>
      let envv := launchEnv server in
      match NewStdioMCPClient (Command server) envv (Args server) P with
      | (P, inl err) =>
          let P := closeAll clients P in
          (P, g, inl ("failed to create MCP client for " +:+ name
                      +:+ ": " +:+ err))
      | (P, inr client) =>
          let g := log Info "Initializing server..." g in
          match Initialize client initRequest P with
          | (P, Some err) =>
              let P := Close client P in
              let P := closeAll clients P in
              (P, g, inl ("failed to initialize MCP client for " +:+ name
                          +:+ ": " +:+ err))
          | (P, None) =>
              registerServers servers' (<[name := client]> clients) P g
          end
      end
  end.

Definition createMCPClients (config : MCPConfig) (P : Procs) (g : Globals)
    : Procs * Globals * (string + gmap string StdioMCPClient) :=
  registerServers (MCPServers config) ∅ P g.

(** The last loop of [runMCPHost]: [connected] is [modelMcpClients] in the
    order [range] visits it; a server whose listing fails is logged and
    passed over, the others append their namespaced tools. *)
Fixpoint loadTools (connected : list (string * StdioMCPClient))
    (g : Globals) : Globals :=
  match connected with
  | [] => g
  | (serverName, mcpClient) :: rest =>
      match listTools mcpClient with
      | inl err => loadTools rest (log Error "Error fetching tools" g)
      | inr tools =>
          let serverTools := mcpToolsToAnthropicTools serverName tools in
          let g := setTools (modelTools g ++ serverTools) g in
          loadTools rest (log Info "Tools loaded" g)
      end
  end.

(** *** The vocabulary of the specification *)

(** The error with which the startup handshake of [server] fails when it
    is attempted in process table [P]: that of the client creation, or
    else that of [Initialize]; [None] when both succeed. *)
Definition handshakeError (server : ServerConfig) (P : Procs)
    : option string :=
  match NewStdioMCPClient (Command server) (launchEnv server)
                          (Args server) P with
  | (_, inl err) => Some err
  | (P, inr client) => (Initialize client initRequest P).2
  end.

(** The process ids of the connections a [clients] map holds. *)
Definition pidsOf (clients : gmap string StdioMCPClient) : gset nat :=
  list_to_set ((fun kv => pid kv.2) <$> map_to_list clients).

(** The catalog entries of the connected servers whose listing
    succeeds, server after server. *)
Definition catalogOf (connected : list (string * StdioMCPClient))
    : list Tool :=
  flat_map (fun entry =>
              match listTools entry.2 with
              | inl _ => []
              | inr tools => mcpToolsToAnthropicTools entry.1 tools
              end) connected.

End Registry.

(** ** The orchestration loop *)

Section Orchestration.

(** The state of everything outside the process (the model backend and
    the tool servers) and the type of tool arguments
    ([map[string]interface{}]). *)
Context {W ToolArgs : Type}.

(** [llm.ToolCall] and [llm.Message] through their getters. *)
Record ToolCall := {
  GetID : string;
  GetName : string;
  GetArguments : ToolArgs
}.

Record Message := {
  GetRole : string;
  GetContent : string;
  GetToolCalls : list ToolCall;
  GetUsage : Z * Z
}.

(** [encoding/json] on tool arguments; [json.Marshal] gives [nil] bytes
    with its error, which the code drops. *)
Variable jsonMarshal : ToolArgs -> string.
Variable jsonUnmarshal : string -> string + ToolArgs.

(** [modelProvider.CreateMessage] and [mcpClient.CallTool]: an error or a
    result, and the outside world afterwards. *)
Variable CreateMessage :
  W -> Provider -> string -> list HistoryMessage -> list Tool ->
  W * (string + Message).
Variable CallTool :
  W -> StdioMCPClient -> string -> ToolArgs -> W * (string + CallToolResult).

(** What left the process, in order (kept for the proofs only). *)
Inductive Event :=
| Query (prompt : string) (conversation : list HistoryMessage)
| Invoke (serverName : string) (client : StdioMCPClient)
         (toolName : string) (toolArgs : ToolArgs).

(** One prompt resolution: the outside world, the package variables, the
    caller's [*messages] and the trace. *)
Record Session := {
  world : W;
  globals : Globals;
  messages : list HistoryMessage;
  trace : list Event
}.

Definition logS (lvl : Level) (msg : string) (s : Session) : Session :=
  {| world := world s; globals := log lvl msg (globals s);
     messages := messages s; trace := trace s |}.

Definition appendMessage (m : HistoryMessage) (s : Session) : Session :=
  {| world := world s; globals := globals s;
     messages := messages s ++ [m]; trace := trace s |}.

Definition outside (w : W) (e : Event) (s : Session) : Session :=
  {| world := w; globals := globals s;
     messages := messages s; trace := trace s ++ [e] |}.

(** The locals of [runPrompt] that the loop over the tool calls
    updates. *)
Record Loop := {
  session : Session;
  messageContent : list ContentBlock;
  toolResults : list ContentBlock
}.

Definition inSession (f : Session -> Session) (l : Loop) : Loop :=
  {| session := f (session l); messageContent := messageContent l;
     toolResults := toolResults l |}.

Definition appendContent (b : ContentBlock) (l : Loop) : Loop :=
  {| session := session l; messageContent := messageContent l ++ [b];
     toolResults := toolResults l |}.

Definition appendResult (b : ContentBlock) (l : Loop) : Loop :=
  {| session := session l; messageContent := messageContent l;
     toolResults := toolResults l ++ [b] |}.

(** The body of [for _, toolCall := range message.GetToolCalls()]; every
    [continue] is a branch that returns the loop state. *)
Definition toolCallStep (message : Message) (l : Loop) (toolCall : ToolCall)
    : Loop :=
  let l := inSession (logS Info "Using tool") l in
  let input := jsonMarshal (GetArguments toolCall) in
  let l := appendContent
             (toolUseBlock (GetID toolCall) (GetName toolCall) input) l in
  let '(inputTokens, outputTokens) := GetUsage message in
  let l := if (inputTokens >? 0) || (outputTokens >? 0)
           then inSession (logS Info "Usage statistics") l else l in
  match Split (GetName toolCall) "__" with
  | [serverName; toolName] =>
      match modelMcpClients (globals (session l)) !! serverName with
      | None => inSession (logS Warn "Server not found") l
      | Some mcpClient =>
          match jsonUnmarshal input with
          | inl _ => inSession (logS Warn "Error parsing tool arguments") l
          | inr toolArgs =>
              let '(w, res) :=
                CallTool (world (session l)) mcpClient toolName toolArgs in
              let l := inSession
                         (outside w (Invoke serverName mcpClient
                                            toolName toolArgs)) l in
              match res with
              | inl err =>
                  let l := inSession (logS Warn "Error calling tool") l in
                  appendContent
                    (errorResultBlock (GetID toolCall) toolName err) l
              | inr toolResult =>
                  match ResultContent toolResult with
                  | Some content =>
                      let l := inSession
                                 (logS Info "Raw tool result content") l in
                      let resultBlock :=
                        toolResultBlock (GetID toolCall) content in
                      let l := inSession
                                 (logS Info "created tool result block") l in
                      appendResult resultBlock l
                  | None => l
                  end
              end
          end
      end
  | _ =>
      (* len(parts) != 2 *)
      inSession (logS Warn "Invalid tool name format") l
  end.

(** A non-empty prompt is appended to the caller's messages as a user
    Turn of one text block. *)
Definition appendPrompt (prompt : string) (s : Session) : Session :=
  if decide (prompt = "") then s
  else appendMessage (Turn "user" [textBlock prompt])
                     (logS Info "User prompt" s).

(** How a round of [runPrompt] ends: with an error, with the call of
    itself that follows tool results, or with the merge into the global
    history. *)
Inductive RoundEnd := Failed (err : string) | Again | Merged.

(** The body of [runPrompt] up to the point where it returns or calls
    itself. *)
Definition promptRound (prompt : string) (s : Session)
    : Session * RoundEnd :=
  let s := appendPrompt prompt s in
  match modelProvider (globals s) with
  | None =>
      (logS Error "Model provider not initialized" s,
       Failed "model provider not initialized")
  | Some provider =>
      let '(w, res) :=
        CreateMessage (world s) provider prompt (messages s)
                      (modelTools (globals s)) in
      let s := outside w (Query prompt (messages s)) s in
      match res with
      | inl err => (s, Failed err)
      | inr message =>
          let l := {| session := s; messageContent := [];
                      toolResults := [] |} in
          let l := if decide (GetContent message = "") then l
                   else inSession (logS Info "Assistant response")
                          (appendContent (textBlock (GetContent message)) l) in
          let l := foldl (toolCallStep message) l (GetToolCalls message) in
          let s := appendMessage
                     (Turn (GetRole message) (messageContent l))
                     (session l) in
          match toolResults l with
          | _ :: _ =>
              (appendMessage (Turn "user" (toolResults l)) s, Again)
          | [] =>
              ({| world := world s;
                  globals := setMessages
                               (modelMessages (globals s) ++ messages s)
                               (globals s);
                  messages := messages s; trace := trace s |}, Merged)
          end
      end
  end.

(** The result of a call of [runPrompt]: what it returned, or nothing yet
    when the rounds allowed did not suffice. *)
Inductive Outcome := OutOfFuel | Returned (err : option string).

(** [runPrompt]; [fuel] bounds the number of rounds, that is of nested
    calls, which the source leaves unbounded. *)
Fixpoint runPrompt (fuel : nat) (prompt : string) (s : Session)
    : Session * Outcome :=
  match fuel with
  | O => (s, OutOfFuel)
  | S fuel' =>
      match promptRound prompt s with
      | (s, Failed err) => (s, Returned (Some err))
      | (s, Again) => runPrompt fuel' "" s
      | (s, Merged) => (s, Returned None)
      end
  end.

(** [promptHandler], after the empty-prompt check of the form value:
    a fresh [messages], one resolution, and the turns or the error for
    the response. *)
Definition promptHandler (fuel : nat) (prompt : string)
    (w : W) (g : Globals) : Session * option (string + list HistoryMessage) :=
  if decide (prompt = "") then
    ({| world := w; globals := g; messages := []; trace := [] |},
     Some (inl "Prompt is required"))
  else
    match runPrompt fuel prompt
            {| world := w; globals := g; messages := []; trace := [] |} with
    | (s, OutOfFuel) => (s, None)
    | (s, Returned (Some err)) =>
        (s, Some (inl ("Error executing prompt: " +:+ err)))
    | (s, Returned None) => (s, Some (inr (messages s)))
    end.

(** *** The vocabulary of the specification *)

(** What becomes of one tool call: its name does not split in two, its
    server is not registered, its arguments do not parse, or it is
    invoked on [client] as [toolName] with [toolArgs] and comes back with
    an error or a result. *)
Inductive CallOutcome :=
| Malformed
| ServerNotFound (serverName : string)
| BadArguments
| Invoked (serverName : string) (client : StdioMCPClient)
          (toolName : string) (toolArgs : ToolArgs)
          (res : string + CallToolResult).

Definition callOutcome (clients : gmap string StdioMCPClient) (w : W)
    (toolCall : ToolCall) : W * CallOutcome :=
  match Split (GetName toolCall) "__" with
  | [serverName; toolName] =>
      match clients !! serverName with
      | None => (w, ServerNotFound serverName)
      | Some client =>
          match jsonUnmarshal (jsonMarshal (GetArguments toolCall)) with
          | inl _ => (w, BadArguments)
          | inr toolArgs =>
              let '(w, res) := CallTool w client toolName toolArgs in
              (w, Invoked serverName client toolName toolArgs res)
          end
      end
  | _ => (w, Malformed)
  end.

(** The outcomes of the calls of one model turn, in order, each in the
    world its predecessors left, and that world at the end. *)
Fixpoint outcomes (clients : gmap string StdioMCPClient) (w : W)
    (calls : list ToolCall) : list CallOutcome :=
  match calls with
  | [] => []
  | toolCall :: calls' =>
      let '(w, o) := callOutcome clients w toolCall in
      o :: outcomes clients w calls'
  end.

Fixpoint worldAfter (clients : gmap string StdioMCPClient) (w : W)
    (calls : list ToolCall) : W :=
  match calls with
  | [] => w
  | toolCall :: calls' =>
      worldAfter clients (callOutcome clients w toolCall).1 calls'
  end.

(** A call that resolved: well-formed name, known server, successful
    invocation. *)
Definition resolved (o : CallOutcome) : bool :=
  match o with
  | Invoked _ _ _ _ (inr _) => true
  | _ => false
  end.

(** A resolved call whose result carries content. *)
Definition produced (o : CallOutcome) : bool :=
  match o with
  | Invoked _ _ _ _ (inr r) => bool_decide (is_Some (ResultContent r))
  | _ => false
  end.

(** A call that was passed over without an invocation. *)
Definition skipped (o : CallOutcome) : bool :=
  match o with
  | Malformed | ServerNotFound _ | BadArguments => true
  | Invoked _ _ _ _ _ => false
  end.

(** A call that succeeded with [nil] content. *)
Definition succeededEmpty (o : CallOutcome) : bool :=
  match o with
  | Invoked _ _ _ _ (inr r) => bool_decide (ResultContent r = None)
  | _ => false
  end.

Definition invocation (o : CallOutcome) : list Event :=
  match o with
  | Invoked serverName client toolName toolArgs _ =>
      [Invoke serverName client toolName toolArgs]
  | _ => []
  end.

Definition errorBlocks (toolCall : ToolCall) (o : CallOutcome)
    : list ContentBlock :=
  match o with
  | Invoked _ _ toolName _ (inl err) =>
      [errorResultBlock (GetID toolCall) toolName err]
  | _ => []
  end.

Definition resultBlocks (toolCall : ToolCall) (o : CallOutcome)
    : list ContentBlock :=
  match o with
  | Invoked _ _ _ _ (inr {| ResultContent := Some content |}) =>
      [toolResultBlock (GetID toolCall) content]
  | _ => []
  end.

Definition useBlock (toolCall : ToolCall) : ContentBlock :=
  toolUseBlock (GetID toolCall) (GetName toolCall)
               (jsonMarshal (GetArguments toolCall)).

(** What the calls of a turn add to the assistant Turn and to the tool
    results, and the invocations they make, given their outcomes. *)
Definition assistantContent (calls : list ToolCall)
    (outs : list CallOutcome) : list ContentBlock :=
  concat (zip_with (fun toolCall o => useBlock toolCall :: errorBlocks toolCall o)
                   calls outs).

Definition resultsOf (calls : list ToolCall) (outs : list CallOutcome)
    : list ContentBlock :=
  concat (zip_with resultBlocks calls outs).

Definition invocations (outs : list CallOutcome) : list Event :=
  concat (invocation <$> outs).

(** The free text of a model turn as blocks: one, or none when empty. *)
Definition textBlocks (message : Message) : list ContentBlock :=
  if decide (GetContent message = "") then []
  else [textBlock (GetContent message)].

Definition isQuery (e : Event) : bool :=
  match e with Query _ _ => true | Invoke _ _ _ _ => false end.

(** The session with which round [n + 1] of a resolution begins, and its
    prompt, when each of the [n] rounds before it ended in tool
    results. *)
Fixpoint afterRounds (n : nat) (prompt : string) (s : Session)
    : option (string * Session) :=
  match n with
  | O => Some (prompt, s)
  | S n' =>
      match promptRound prompt s with
      | (s, Again) => afterRounds n' "" s
      | _ => None
      end
  end.

End Orchestration.


(** ** Concrete servers, backends and sessions

    A scripted model backend and one tool server, [fs], used to run the
    definitions on explicit inputs.  The outside world is the number of
    model queries made so far; tool arguments are kept as JSON text. *)

Module Scenario.

Definition fsClient : StdioMCPClient := {| pid := 0; command := "fs-server" |}.

Definition provider : Provider :=
  {| providerName := "ollama"; providerModel := "llama3" |}.

(** One registered server, an initialised provider, an empty history. *)
Definition ready : Globals :=
  {| configFile := ""; messageWindow := 10; modelFlag := "ollama:llama3";
     anthropicAPIKey := ""; anthropicBaseURL := "";
     openaiBaseURL := ""; openaiAPIKey := "";
     modelProvider := Some provider;
     modelMcpClients := {[ "fs" := fsClient ]};
     modelTools := []; modelMessages := []; logged := [] |}.

Definition marshal (a : string) : string := a.
Definition unmarshal (input : string) : string + string := inr input.

(** The backend answers query number [w] with entry [w] of the script
    and fails when the script is exhausted. *)
Definition backend (script : list (string + @Message string))
    (w : nat) (_ : Provider) (_ : string) (_ : list HistoryMessage)
    (_ : list Tool) : nat * (string + @Message string) :=
  (S w, nth w script (inl "backend unavailable")).

(** The [fs] server: [list] answers with two text items and one item
    without text, [empty] succeeds with nil content, anything else is an
    execution error. *)
Definition fsTools (w : nat) (_ : StdioMCPClient) (toolName : string)
    (_ : string) : nat * (string + CallToolResult) :=
  if decide (toolName = "list") then
    (w, inr {| ResultContent :=
                 Some [ItemObject {[ "text" := "a.txt" ]};
                       ItemOther "42";
                       ItemObject {[ "text" := "b.txt" ]}] |})
  else if decide (toolName = "empty") then
    (w, inr {| ResultContent := None |})
  else (w, inl "connection reset").

Definition call (id name : string) : @ToolCall string :=
  {| GetID := id; GetName := name; GetArguments := "{}" |}.

Definition turn (text : string) (calls : list (@ToolCall string))
    : @Message string :=
  {| GetRole := "assistant"; GetContent := text;
     GetToolCalls := calls; GetUsage := (0, 0) |}.

Definition fresh : @Session nat string :=
  {| world := O; globals := ready; messages := []; trace := [] |}.

Definition round (script : list (string + @Message string)) :=
  promptRound marshal unmarshal (backend script) fsTools.

Definition run (script : list (string + @Message string)) :=
  runPrompt marshal unmarshal (backend script) fsTools.

(** A server process starts unless its command is [missing]; it answers
    the handshake unless its command is [mute]. *)
Definition startError (_ : Procs) (command : string)
    (_ _ : list string) : option string :=
  if decide (command = "missing") then Some "executable file not found"
  else None.

Definition initializeError (_ : Procs) (client : StdioMCPClient)
    (_ : InitializeRequest) : option string :=
  if decide (command client = "mute") then Some "context deadline exceeded"
  else None.

Definition server (command : string) : ServerConfig :=
  {| Command := command; Args := []; Env := [] |}.

Definition noProcs : Procs := {| nextPid := O; live := ∅ |}.

Definition tool (name : string) : Tool :=
  {| ToolName := name; Description := "";
     InputSchema := {| SchemaType := "object"; Properties := ∅;
                       Required := [] |} |}.

(** Process [0] advertises [_y], every other process [y]. *)
Definition listTools (client : StdioMCPClient) : string + list Tool :=
  if decide (pid client = O) then inr [tool "_y"] else inr [tool "y"].

Definition twoServers : list (string * StdioMCPClient) :=
  [("x", {| pid := 0; command := "one" |});
   ("x_", {| pid := 1; command := "two" |})].

Definition turnOf (text : string) : HistoryMessage :=
  Turn "user" [textBlock text].

(** The loop state before the first tool call of a turn without text. *)
Definition idle : @Loop nat string :=
  {| session := fresh; messageContent := []; toolResults := [] |}.

(** The same with a second server registered as [fs_]. *)
Definition otherClient : StdioMCPClient :=
  {| pid := 1; command := "fs-server-2" |}.

Definition idleTwo : @Loop nat string :=
  {| session :=
       {| world := O;
          globals :=
            {| configFile := ""; messageWindow := 10;
               modelFlag := "ollama:llama3";
               anthropicAPIKey := ""; anthropicBaseURL := "";
               openaiBaseURL := ""; openaiAPIKey := "";
               modelProvider := Some provider;
               modelMcpClients :=
                 <[ "fs_" := otherClient ]> {[ "fs" := fsClient ]};
               modelTools := []; modelMessages := []; logged := [] |};
          messages := []; trace := [] |};
     messageContent := []; toolResults := [] |}.

(** A window of two over a history of three turns. *)
Definition threeTurns : Globals :=
  setMessages [turnOf "one"; turnOf "two"; turnOf "three"]
    (LoadServerEnv None {[ "MCP_MESSAGE_WINDOW" := "2" ]} initialGlobals).2.

(** A backend that asks for one tool and is down when queried again. *)
Definition failing : list (string + @Message string) :=
  [inr (turn "" [call "c1" "fs__list"]); inl "backend down"].

Definition threeServers : list (string * ServerConfig) :=
  [("a", server "ok"); ("b", server "mute"); ("c", server "ok")].

End Scenario.

(** ** Further vocabulary *)

(** An event that stays within the registry: a model query, or an
    invocation on the connection that [clients] holds under the server
    name used. *)
Definition withinRegistry {ToolArgs : Type}
    (clients : gmap string StdioMCPClient) (e : @Event ToolArgs) : Prop :=
  match e with
  | Query _ _ => True
  | Invoke serverName client _ _ => clients !! serverName = Some client
  end.

(** The [tool_use] blocks of a run of turns, in order. *)
Definition toolUses (turns : list HistoryMessage) : list ContentBlock :=
  filter isToolUse (concat (TurnContent <$> turns)).

(** The invocation a [tool_use] block asks for, read off the block alone:
    its name split at the separator gives the server and the tool, the
    server must be registered, and its input must parse. *)
Definition invocationOf {ToolArgs : Type}
    (jsonUnmarshal : string -> string + ToolArgs)
    (clients : gmap string StdioMCPClient) (b : ContentBlock)
    : option (@Event ToolArgs) :=
  match Split (Name b) "__" with
  | [serverName; toolName] =>
      match clients !! serverName with
      | Some client =>
          match jsonUnmarshal (Input b) with
          | inr toolArgs => Some (Invoke serverName client toolName toolArgs)
          | inl _ => None
          end
      | None => None
      end
  | _ => None
  end.

(** The tool invocations among the events of a trace. *)
Definition invokes {ToolArgs : Type} (events : list (@Event ToolArgs))
    : list (@Event ToolArgs) :=
  filter (fun e => negb (isQuery e)) events.

(** The ["text"] fields of a raw result, in order, of the items that are
    objects and carry one. *)
Definition textsOf (content : list RawItem) : list string :=
  omap (fun item =>
          match item with
          | ItemObject contentMap => contentMap !! "text"
          | ItemOther _ => None
          end) content.

(** The connections are open, were started before [P]'s next process, and
    no two names share one. *)
Definition wellRegistered (clients : gmap string StdioMCPClient) (P : Procs)
    : Prop :=
  (∀ n c, clients !! n = Some c → pid c ∈ live P ∧ (pid c < nextPid P)%nat) ∧
  (∀ n1 n2 c1 c2, clients !! n1 = Some c1 → clients !! n2 = Some c2 →
                  pid c1 = pid c2 → n1 = n2).

(** ** Startup: provider, configuration file, host *)

(** [s[n:]]. *)
Fixpoint dropBytes (n : nat) (s : string) : string :=
  match n, s with
  | O, _ => s
  | S n', String _ s' => dropBytes n' s'
  | S _, EmptyString => EmptyString
  end.

(** The text before and behind the leftmost occurrence of [sep] in [s]
    ([strings.Index] and the two slices [genSplit] takes). *)
Fixpoint cutAt (sep s : string) {struct s} : option (string * string) :=
  if HasPrefix s sep then Some (EmptyString, dropBytes (String.length sep) s)
  else match s with
       | EmptyString => None
       | String c s' =>
           match cutAt sep s' with
           | Some (before, behind) => Some (String c before, behind)
           | None => None
           end
       end.

(** [genSplit] with a limit: at most [more] cuts, the rest is the last
    piece. *)
Fixpoint splitPieces (sep s : string) (more : nat) : list string :=
  match more with
  | O => [s]
  | S more' =>
      match cutAt sep s with
      | None => [s]
      | Some (before, behind) => before :: splitPieces sep behind more'
      end
  end.

(** [explode]: single bytes, the last piece taking what is left. *)
Fixpoint explodeN (s : string) (more : nat) : list string :=
  match s with
  | EmptyString => []
  | String c s' =>
      match more with
      | O => [s]
      | S more' => String c EmptyString :: explodeN s' more'
      end
  end.

(** [strings.SplitN s sep n]. *)
Definition SplitN (s sep : string) (n : Z) : list string :=
  if n =? 0 then []
  else match sep with
       | EmptyString =>
           explodeN s (if n <? 0 then String.length s else Z.to_nat n - 1)
       | String _ _ =>
           if n <? 0 then Split s sep else splitPieces sep s (Z.to_nat n - 1)
       end.

Definition setProvider (provider : option Provider) (g : Globals) : Globals :=
  {| configFile := configFile g; messageWindow := messageWindow g;
     modelFlag := modelFlag g; anthropicAPIKey := anthropicAPIKey g;
     anthropicBaseURL := anthropicBaseURL g;
     openaiBaseURL := openaiBaseURL g; openaiAPIKey := openaiAPIKey g;
     modelProvider := provider;
     modelMcpClients := modelMcpClients g;
     modelTools := modelTools g; modelMessages := modelMessages g;
     logged := logged g |}.

Definition setClients (clients : gmap string StdioMCPClient) (g : Globals)
    : Globals :=
  {| configFile := configFile g; messageWindow := messageWindow g;
     modelFlag := modelFlag g; anthropicAPIKey := anthropicAPIKey g;
     anthropicBaseURL := anthropicBaseURL g;
     openaiBaseURL := openaiBaseURL g; openaiAPIKey := openaiAPIKey g;
     modelProvider := modelProvider g;
     modelMcpClients := clients;
     modelTools := modelTools g; modelMessages := modelMessages g;
     logged := logged g |}.

(** What a failing [os.WriteFile] leaves behind: nothing when the file
    could not be opened, or the file created or truncated with whatever
    was written before the error. *)
Inductive WriteFault :=
| OpenFails (err : string)
| WriteFails (err : string) (written : string).

(** The files the process can see: their contents, and the paths on which
    [os.Stat] fails with an error other than "does not exist", on which
    reading fails, and on which writing fails. *)
Record FileSystem := {
  files : gmap string string;
  statFaults : gmap string string;
  readFaults : gmap string string;
  writeFaults : gmap string WriteFault
}.

(** [os.IsNotExist] of the error of [os.Stat]: false when the file is
    there and when [os.Stat] fails for another reason. *)
Definition notExist (fs : FileSystem) (path : string) : bool :=
  match statFaults fs !! path with
  | Some _ => false
  | None => bool_decide (files fs !! path = None)
  end.

(** [os.ReadFile]: the contents, or the error; reading a file that is not
    there fails with the path error of [open]. *)
Definition ReadFile (fs : FileSystem) (path : string) : string + string :=
  match readFaults fs !! path with
  | Some err => inl err
  | None =>
      match files fs !! path with
      | Some data => inr data
      | None => inl ("open " +:+ path +:+ ": no such file or directory")
      end
  end.

Definition withFile (path data : string) (fs : FileSystem) : FileSystem :=
  {| files := <[path := data]> (files fs); statFaults := statFaults fs;
     readFaults := readFaults fs; writeFaults := writeFaults fs |}.

(** [os.WriteFile]: the file is opened with [O_CREATE|O_TRUNC] and the
    data written; it can fail before the file is opened, leaving the files
    as they were, or after, leaving the file there with what of the data
    was written. *)
Definition WriteFile (fs : FileSystem) (path data : string)
    : FileSystem * option string :=
  match writeFaults fs !! path with
  | Some (OpenFails err) => (fs, Some err)
  | Some (WriteFails err written) => (withFile path written fs, Some err)
  | None => (withFile path data fs, None)
  end.

(** How [runMCPHost] ends: with the panic of a nil dereference, or
    returning its error. *)
Inductive HostResult := NilDereference | HostReturned (err : option string).

(** The process at startup: environment, files, tool-server processes and
    package variables. *)
Record Host := {
  environ : gmap string string;
  fsys : FileSystem;
  procs : Procs;
  vars : Globals
}.

Section Startup.

(** The provider constructors of [pkg/llm]; the one of ollama returns a
    provider and an error, which [createProvider] hands on as they are. *)
Variable anthropicNewProvider : string -> string -> string -> Provider.
Variable ollamaNewProvider : string -> option Provider * option string.
Variable openaiNewProvider : string -> string -> string -> Provider.

(** [os.UserHomeDir], [filepath.Join], and [encoding/json] on the
    configuration document. *)
Variable UserHomeDir : string + string.
Variable filepathJoin : string -> string -> string.
Variable renderConfig : MCPConfig -> string + string.
Variable parseConfig : string -> string + MCPConfig.

(** The tool servers, as in the registry, and the order in which [range]
    visits [modelMcpClients]. *)
Variable startError : Procs -> string -> list string -> list string -> option string.
Variable initializeError : Procs -> StdioMCPClient -> InitializeRequest -> option string.
Variable listTools : StdioMCPClient -> string + list Tool.
Variable rangeClients :
  gmap string StdioMCPClient -> list (string * StdioMCPClient).

(** [createProvider]: the provider, or [nil], and the error. *)
Definition createProvider (env : gmap string string) (g : Globals)
    (modelString : string) : option Provider * option string :=
  match SplitN modelString ":" 2 with
  | provider :: model :: _ =>
      if decide (provider = "anthropic") then
        let apiKey := anthropicAPIKey g in
        let apiKey := if decide (apiKey = "")
                      then Getenv env "ANTHROPIC_API_KEY" else apiKey in
        if decide (apiKey = "") then
          (None, Some "anthropic API key not provided. Use --anthropic-api-key flag or ANTHROPIC_API_KEY environment variable")
        else (Some (anthropicNewProvider apiKey (anthropicBaseURL g) model),
              None)
      else if decide (provider = "ollama") then ollamaNewProvider model
      else if decide (provider = "openai") then
        let apiKey := openaiAPIKey g in
        let apiKey := if decide (apiKey = "")
                      then Getenv env "OPENAI_API_KEY" else apiKey in
        if decide (apiKey = "") then
          (None, Some "OpenAI API key not provided. Use --openai-api-key flag or OPENAI_API_KEY environment variable")
        else (Some (openaiNewProvider apiKey (openaiBaseURL g) model), None)
      else (None, Some ("unsupported provider: " +:+ provider))
  | _ =>
      (* len(parts) < 2 *)
      (None, Some ("invalid model format. Expected provider:model, got "
                   +:+ modelString))
  end.

(** [loadMCPConfig]: the configuration, or [nil], and the error. *)
Definition loadMCPConfig (fs : FileSystem) (g : Globals)
    : FileSystem * (option MCPConfig * option string) :=
  match (if decide (configFile g = "") then
           match UserHomeDir with
           | inl err => inl ("error getting home directory: " +:+ err)
           | inr homeDir => inr (filepathJoin homeDir ".mcp.json")
           end
         else inr (configFile g)) with
  | inl err => (fs, (None, Some err))
  | inr configPath =>
      if notExist fs configPath then
        let defaultConfig := {| MCPServers := [] |} in
        match renderConfig defaultConfig with
        | inl err =>
            (fs, (None, Some ("error creating default config: " +:+ err)))
        | inr configData =>
            match WriteFile fs configPath configData with
            | (fs, Some err) =>
                (fs, (None, Some ("error writing default config file: "
                                  +:+ err)))
            | (fs, None) => (fs, (Some defaultConfig, None))
            end
        end
      else
        match ReadFile fs configPath with
        | inl err =>
            (fs, (None, Some ("error reading config file " +:+ configPath
                              +:+ ": " +:+ err)))
        | inr configData =>
            match parseConfig configData with
            | inl err =>
                (fs, (None, Some ("error parsing config file: " +:+ err)))
            | inr config => (fs, (Some config, None))
            end
        end
  end.

Definition withVars (g : Globals) (h : Host) : Host :=
  {| environ := environ h; fsys := fsys h; procs := procs h; vars := g |}.

(** [runMCPHost].  The log level it sets first is not part of the state.
    [modelProvider.Name()] on a nil provider and [config.MCPServers] on a
    nil configuration are the two dereferences that can panic. *)
Definition runMCPHost (h : Host) : Host * HostResult :=
  let '(provider, err) :=
    createProvider (environ h) (vars h) (modelFlag (vars h)) in
  let g := setProvider provider (vars h) in
  match err with
  | Some err =>
      (withVars g h, HostReturned (Some ("error creating provider: " +:+ err)))
  | None =>
      match provider with
      | None => (withVars g h, NilDereference)
      | Some _ =>
          let g := log Info "Model loaded" g in
          let '(fs, (mcpConfig, err)) := loadMCPConfig (fsys h) g in
          let g := match err with
                   | Some _ => log Error "Error loading MCP config" g
                   | None => g
                   end in
          match mcpConfig with
          | None =>
              ({| environ := environ h; fsys := fs; procs := procs h;
                  vars := g |}, NilDereference)
          | Some config =>
              let '(P, g, res) :=
                createMCPClients startError initializeError (environ h)
                                 config (procs h) g in
              let '(clients, g) :=
                match res with
                | inl _ => (∅, log Error "Error creating MCP clients" g)
                | inr clients => (clients, g)
                end in
              let g := setClients clients g in
              let g := log Info "MCP clients created" g in
              let g := foldr (fun _ g => log Info "Server connected" g) g
                             (map_to_list clients) in
              let g := loadTools listTools (rangeClients clients) g in
              ({| environ := environ h; fsys := fs; procs := P; vars := g |},
               HostReturned None)
          end
      end
  end.

(** [Server.Start] up to [ListenAndServe]: the routes are the handlers
    above; the error of [runMCPHost] is dropped; [None] is the process
    ended by a panic. *)
Definition Start (srv : Server) (h : Host) : option Host :=
  match runMCPHost h with
  | (_, NilDereference) => None
  | (h, HostReturned _) => Some (withVars (log Info "Server hosting" (vars h)) h)
  end.

(** [main], with [server_mode] true as the source sets it. *)
Definition main (dotenv : option (gmap string string)) (h : Host)
    : option Host :=
  let '(env, g) := LoadServerEnv dotenv (environ h) (vars h) in
  let '(srv, g) := NewServer env g in
  Start srv {| environ := env; fsys := fsys h; procs := procs h; vars := g |}.

End Startup.

(** ** A concrete deployment

    Providers that only record their name and model, a home directory, a
    configuration file whose contents stand for three documents, and the
    tool servers of [Scenario]. *)

Module Deployment.

Definition anthropicNew (apiKey baseURL model : string) : Provider :=
  {| providerName := "anthropic"; providerModel := model |}.

Definition ollamaNew (model : string) : option Provider * option string :=
  (Some {| providerName := "ollama"; providerModel := model |}, None).

Definition openaiNew (apiKey baseURL model : string) : Provider :=
  {| providerName := "openai"; providerModel := model |}.

Definition home : string + string := inr "/home/u".

Definition join (dir name : string) : string := dir +:+ "/" +:+ name.

(** The default document (its quotes left out). *)
Definition render (_ : MCPConfig) : string + string := inr "{mcpServers: {}}".

(** [two] names two servers that answer, [three] the three servers of
    [Scenario], of which the second is mute; anything but these and the
    default document does not parse. *)
Definition parse (data : string) : string + MCPConfig :=
  if decide (data = "{mcpServers: {}}") then inr {| MCPServers := [] |}
  else if decide (data = "two") then
    inr {| MCPServers := [("a", Scenario.server "ok");
                          ("c", Scenario.server "ok")] |}
  else if decide (data = "three") then
    inr {| MCPServers := Scenario.threeServers |}
  else inl "invalid character".

Definition range (clients : gmap string StdioMCPClient)
    : list (string * StdioMCPClient) := map_to_list clients.

(** A host about to start, with model flag [flag] and the configuration
    file [/etc/mcp.json] holding [data]. *)
Definition hostWith (flag data : string) : Host :=
  {| environ := ∅;
     fsys := {| files := {[ "/etc/mcp.json" := data ]}; statFaults := ∅;
                readFaults := ∅; writeFaults := ∅ |};
     procs := Scenario.noProcs;
     vars := {| configFile := "/etc/mcp.json"; messageWindow := 10;
                modelFlag := flag;
                anthropicAPIKey := ""; anthropicBaseURL := "";
                openaiBaseURL := ""; openaiAPIKey := "";
                modelProvider := None; modelMcpClients := ∅;
                modelTools := []; modelMessages := []; logged := [] |} |}.

(** A listing that times out on process [1]. *)
Definition flakyListTools (client : StdioMCPClient) : string + list Tool :=
  if decide (pid client = 1%nat) then inl "context deadline exceeded"
  else inr [Scenario.tool "status"].

(** A window of [-1] over a history of one turn. *)
Definition negativeWindow : Globals :=
  setMessages [Scenario.turnOf "one"]
    (LoadServerEnv None {[ "MCP_MESSAGE_WINDOW" := "-1" ]} initialGlobals).2.

Definition provide := createProvider anthropicNew ollamaNew openaiNew.
Definition load := loadMCPConfig home join render parse.
Definition host :=
  runMCPHost anthropicNew ollamaNew openaiNew home join render parse
             Scenario.startError Scenario.initializeError
             Scenario.listTools range.
Definition entry :=
  main anthropicNew ollamaNew openaiNew home join render parse
       Scenario.startError Scenario.initializeError Scenario.listTools range.

End Deployment.


(** * Properties *)

#[local] Set Warnings "-clear-no-such-hyp".

(** ** Splitting at the separator *)

Lemma HasPrefix_empty s : HasPrefix s "" = true.
Proof. by destruct s. Qed.

Lemma splitFrom_length sep skip s :
  length (splitFrom sep skip s) = S (countFrom sep skip s).
Proof.
  revert skip. induction s as [|c s IH]; intros skip; [done|].
  destruct skip as [|k]; cbn [splitFrom countFrom]; [|apply IH].
  destruct (HasPrefix (String c s) sep).
  - cbn. by rewrite IH.
  - specialize (IH O). destruct (splitFrom sep 0 s); [done|]. cbn in *. lia.
Qed.

Lemma Split_length s sep :
  sep ≠ EmptyString → length (Split s sep) = S (Count s sep).
Proof. destruct sep; [done|]. intros _. apply splitFrom_length. Qed.

Lemma splitFrom_none t :
  Contains t "__" = false → splitFrom "__" 0 t = [t].
Proof.
  induction t as [|c t IH]; [done|]. intros H.
  cbn [Contains] in H. apply orb_false_iff in H as [Hp Hc].
  cbn [splitFrom]. rewrite Hp, (IH Hc). done.
Qed.

Lemma HasPrefix_sep_head c s s' :
  (∀ d, (∃ r, s = String d r) ↔ (∃ r, s' = String d r)) →
  HasPrefix (String c s) "__" = HasPrefix (String c s') "__".
Proof.
  intros H. cbn. destruct (Ascii.eqb c "_"); [|done]. cbn.
  destruct s as [|d r], s' as [|d' r']; cbn; try done.
  - destruct (H d') as [_ H2]. destruct H2 as [? ?]; [by eexists|done].
  - destruct (H d) as [H1 _]. destruct H1 as [? ?]; [by eexists|done].
  - destruct (H d) as [H1 _]. destruct H1 as [? H1]; [by eexists|].
    injection H1 as -> _. by rewrite !HasPrefix_empty.
Qed.

Lemma splitFrom_clean a t :
  Contains (a +:+ "_") "__" = false →
  splitFrom "__" 0 (a +:+ "__" +:+ t) = a :: splitFrom "__" 0 t.
Proof.
  induction a as [|c a IH].
  { intros _. change ("" +:+ "__" +:+ t) with (String "_" (String "_" t)).
    cbn [splitFrom HasPrefix Ascii.eqb Bool.eqb andb String.length Nat.sub].
    by rewrite HasPrefix_empty. }
  intros H. change (Contains (String c (a +:+ "_")) "__" = false) in H.
  cbn [Contains] in H. apply orb_false_iff in H as [Hp Hc].
  change (String c a +:+ "__" +:+ t) with (String c (a +:+ "__" +:+ t)).
  cbn [splitFrom].
  rewrite (HasPrefix_sep_head c _ (a +:+ "_")), Hp, (IH Hc); [done|].
  intros d. destruct a as [|e a].
  - change ("" +:+ "__" +:+ t) with (String "_" (String "_" t)).
    change ("" +:+ "_") with (String "_" "").
    split; intros [r Hr]; injection Hr as -> _; by eexists.
  - change (String e a +:+ "__" +:+ t) with (String e (a +:+ "__" +:+ t)).
    change (String e a +:+ "_") with (String e (a +:+ "_")).
    split; intros [r Hr]; injection Hr as -> _; by eexists.
Qed.

Lemma Split_namespaced a t :
  Contains (a +:+ "_") "__" = false → Contains t "__" = false →
  Split (a +:+ "__" +:+ t) "__" = [a; t].
Proof.
  intros Ha Ht. unfold Split. by rewrite splitFrom_clean, splitFrom_none.
Qed.

Lemma append_inj_r s t1 t2 : s +:+ t1 = s +:+ t2 → t1 = t2.
Proof. induction s; cbn; [done|]. intros [=]; auto. Qed.

Lemma string_app_length s t : String.length (s +:+ t) = (String.length s + String.length t)%nat.
Proof. induction s as [|c s IH]; simpl; [done|]. by rewrite IH. Qed.

Lemma append_inj_l a b t : a +:+ t = b +:+ t → a = b.
Proof.
  revert b. induction a as [|c a IH]; intros [|d b] H.
  - done.
  - apply (f_equal String.length) in H.
    rewrite !string_app_length in H. simpl in H. lia.
  - apply (f_equal String.length) in H.
    rewrite !string_app_length in H. simpl in H. lia.
  - simpl in H. injection H as -> H. f_equal. by apply IH.
Qed.

(** ** The orchestration loop *)

Section OrchestrationFacts.

Context {W ToolArgs : Type}.
Variable jsonMarshal : ToolArgs -> string.
Variable jsonUnmarshal : string -> string + ToolArgs.
Variable CreateMessage :
  W -> Provider -> string -> list HistoryMessage -> list Tool ->
  W * (string + @Message ToolArgs).
Variable CallTool :
  W -> StdioMCPClient -> string -> ToolArgs -> W * (string + CallToolResult).

Local Abbreviation step := (toolCallStep jsonMarshal jsonUnmarshal CallTool).
Local Abbreviation outcome := (callOutcome jsonMarshal jsonUnmarshal CallTool).
Local Abbreviation outcomesOf := (outcomes jsonMarshal jsonUnmarshal CallTool).
Local Abbreviation worldBehind := (worldAfter jsonMarshal jsonUnmarshal CallTool).
Local Abbreviation round := (promptRound jsonMarshal jsonUnmarshal CreateMessage CallTool).
Local Abbreviation resolve := (runPrompt jsonMarshal jsonUnmarshal CreateMessage CallTool).

(** What one pass through the loop body does, read off the outcome of
    the call. *)
Lemma toolCallStep_outcome (message : Message) (l : Loop) (toolCall : ToolCall) :
  let o := outcome (modelMcpClients (globals (session l)))
                   (world (session l)) toolCall in
  let l' := step message l toolCall in
  world (session l') = o.1 ∧
  messages (session l') = messages (session l) ∧
  unlogged (globals (session l')) = unlogged (globals (session l)) ∧
  trace (session l') = trace (session l) ++ invocation o.2 ∧
  messageContent l' =
    messageContent l ++ useBlock jsonMarshal toolCall :: errorBlocks toolCall o.2 ∧
  toolResults l' = toolResults l ++ resultBlocks toolCall o.2.
Proof.
  unfold toolCallStep, callOutcome, useBlock.
  destruct (GetUsage message) as [inputTokens outputTokens].
  destruct ((inputTokens >? 0) || (outputTokens >? 0));
    destruct (Split (GetName toolCall) "__") as [|serverName [|toolName [|? ?]]];
    cbn; rewrite ?app_nil_r; try done.
  all: destruct (modelMcpClients (globals (session l)) !! serverName)
         as [client|]; cbn; rewrite ?app_nil_r; try done.
  all: destruct (jsonUnmarshal (jsonMarshal (GetArguments toolCall)))
         as [?|toolArgs]; cbn; rewrite ?app_nil_r; try done.
  all: destruct (CallTool (world (session l)) client toolName toolArgs)
         as [w [err|[[content|]]]]; cbn; rewrite ?app_nil_r, <- ?app_assoc; done.
Qed.

Lemma unlogged_clients g g' :
  unlogged g = unlogged g' → modelMcpClients g = modelMcpClients g'.
Proof. intros H. exact (f_equal modelMcpClients H). Qed.

(** The whole loop over the tool calls of a turn. *)
Lemma dispatch_outcomes (message : Message) (calls : list ToolCall) (l : Loop) :
  let clients := modelMcpClients (globals (session l)) in
  let outs := outcomesOf clients (world (session l)) calls in
  let l' := foldl (step message) l calls in
  world (session l') = worldBehind clients (world (session l)) calls ∧
  messages (session l') = messages (session l) ∧
  unlogged (globals (session l')) = unlogged (globals (session l)) ∧
  trace (session l') = trace (session l) ++ invocations outs ∧
  messageContent l' =
    messageContent l ++ assistantContent jsonMarshal calls outs ∧
  toolResults l' = toolResults l ++ resultsOf calls outs.
Proof.
  revert l. induction calls as [|toolCall calls IH]; intros l.
  { cbn. rewrite !app_nil_r. done. }
  cbn zeta.
  destruct (toolCallStep_outcome message l toolCall)
    as (Hw & Hm & Hg & Ht & Hc & Hr).
  destruct (IH (step message l toolCall)) as (Hw' & Hm' & Hg' & Ht' & Hc' & Hr').
  cbn [foldl outcomes worldAfter].
  rewrite (unlogged_clients _ _ Hg) in Hw', Ht', Hc', Hr'.
  rewrite Hw in Hw', Ht', Hc', Hr'.
  destruct (outcome (modelMcpClients (globals (session l)))
                    (world (session l)) toolCall) as [w o] eqn:Ho.
  cbn [fst snd] in *.
  rewrite Hw', Hm', Hg', Ht', Hc', Hr', Hm, Hg, Ht, Hc, Hr.
  unfold invocations, assistantContent, resultsOf.
  cbn [fmap list_fmap zip_with concat].
  rewrite <- !app_assoc. done.
Qed.

Lemma appendPrompt_frame prompt (s : @Session W ToolArgs) :
  world (appendPrompt prompt s) = world s ∧
  unlogged (globals (appendPrompt prompt s)) = unlogged (globals s) ∧
  trace (appendPrompt prompt s) = trace s.
Proof. unfold appendPrompt. by destruct (decide _). Qed.

(** A round in which the backend answers. *)
Lemma promptRound_answered prompt s provider w (message : Message) :
  modelProvider (globals s) = Some provider →
  CreateMessage (world s) provider prompt (messages (appendPrompt prompt s))
                (modelTools (globals s)) = (w, inr message) →
  let asked := messages (appendPrompt prompt s) in
  let clients := modelMcpClients (globals s) in
  let calls := GetToolCalls message in
  let outs := outcomesOf clients w calls in
  let content := textBlocks message ++ assistantContent jsonMarshal calls outs in
  let results := resultsOf calls outs in
  let r := round prompt s in
  messages r.1 =
    asked ++ Turn (GetRole message) content ::
             match results with [] => [] | _ => [Turn "user" results] end ∧
  r.2 = match results with [] => Merged | _ => Again end ∧
  world r.1 = worldBehind clients w calls ∧
  trace r.1 = trace s ++ Query prompt asked :: invocations outs ∧
  unlogged (globals r.1) =
    unlogged match results with
             | [] => setMessages (modelMessages (globals s) ++ messages r.1)
                                 (globals s)
             | _ => globals s
             end.
Proof.
  intros Hp Hc.
  destruct (appendPrompt_frame prompt s) as (Hw0 & Hg0 & Ht0).
  unfold promptRound.
  set (s0 := appendPrompt prompt s) in *.
  assert (modelProvider (globals s0) = Some provider) as ->
    by (rewrite <- Hp; exact (f_equal modelProvider Hg0)).
  assert (modelTools (globals s0) = modelTools (globals s)) as ->
    by exact (f_equal modelTools Hg0).
  rewrite Hw0, Hc.
  set (l0 := if decide (GetContent message = "") then _ else _).
  assert (world (session l0) = w ∧ messages (session l0) = messages s0 ∧
          unlogged (globals (session l0)) = unlogged (globals s) ∧
          trace (session l0) = trace s ++ [Query prompt (messages s0)] ∧
          messageContent l0 = textBlocks message ∧ toolResults l0 = [])
    as (Hw & Hm & Hg & Ht & Hmc & Htr).
  { unfold l0, textBlocks. destruct (decide _); cbn; rewrite ?Ht0; done. }
  destruct (dispatch_outcomes message (GetToolCalls message) l0)
    as (Hw' & Hm' & Hg' & Ht' & Hc' & Hr').
  rewrite (unlogged_clients _ _ Hg), Hw in Hw', Ht', Hc', Hr'.
  rewrite Hg in Hg'. rewrite Hm in Hm'. rewrite Ht in Ht'.
  rewrite Hmc in Hc'. rewrite Htr in Hr'. cbn [app] in Hr'.
  set (l1 := foldl _ l0 _) in *.
  rewrite Hr'.
  destruct (resultsOf _ _) as [|b bs] eqn:Hres; cbn.
  - rewrite Hm', Hw', Ht', Hc', <- app_assoc. cbn.
    repeat split; try done.
    unfold setMessages, unlogged. cbn.
    pose proof (f_equal modelMessages Hg') as E1. cbn in E1.
    injection Hg' as -> -> -> -> -> -> -> -> -> -> ->. done.
  - rewrite Hm', Hw', Ht', Hc', <- !app_assoc. cbn.
    repeat split; done.
Qed.

Lemma promptRound_uninitialised prompt s :
  modelProvider (globals s) = None →
  round prompt s =
    (logS Error "Model provider not initialized" (appendPrompt prompt s),
     Failed "model provider not initialized").
Proof.
  intros Hp. destruct (appendPrompt_frame prompt s) as (_ & Hg0 & _).
  unfold promptRound.
  assert (modelProvider (globals (appendPrompt prompt s)) = None) as ->
    by (rewrite <- Hp; exact (f_equal modelProvider Hg0)).
  done.
Qed.

Lemma promptRound_refused prompt s provider w err :
  modelProvider (globals s) = Some provider →
  CreateMessage (world s) provider prompt (messages (appendPrompt prompt s))
                (modelTools (globals s)) = (w, inl err) →
  round prompt s =
    (outside w (Query prompt (messages (appendPrompt prompt s)))
             (appendPrompt prompt s), Failed err).
Proof.
  intros Hp Hc. destruct (appendPrompt_frame prompt s) as (Hw0 & Hg0 & _).
  unfold promptRound.
  assert (modelProvider (globals (appendPrompt prompt s)) = Some provider)
    as -> by (rewrite <- Hp; exact (f_equal modelProvider Hg0)).
  assert (modelTools (globals (appendPrompt prompt s)) = modelTools (globals s))
    as -> by exact (f_equal modelTools Hg0).
  by rewrite Hw0, Hc.
Qed.

(** Only the round that ends a resolution touches the global history,
    and no round touches the catalog. *)
Lemma promptRound_globals prompt s :
  let r := round prompt s in
  modelTools (globals r.1) = modelTools (globals s) ∧
  (r.2 ≠ Merged → modelMessages (globals r.1) = modelMessages (globals s)).
Proof.
  destruct (appendPrompt_frame prompt s) as (_ & Hg0 & _).
  destruct (modelProvider (globals s)) as [provider|] eqn:Hp.
  2:{ rewrite (promptRound_uninitialised _ _ Hp). cbn.
      split; [exact (f_equal modelTools Hg0)|].
      intros _. exact (f_equal modelMessages Hg0). }
  destruct (CreateMessage (world s) provider prompt
              (messages (appendPrompt prompt s)) (modelTools (globals s)))
    as [w [err|message]] eqn:Hc.
  { rewrite (promptRound_refused _ _ _ _ _ Hp Hc). cbn.
    split; [exact (f_equal modelTools Hg0)|].
    intros _. exact (f_equal modelMessages Hg0). }
  destruct (promptRound_answered _ _ _ _ _ Hp Hc) as (_ & He & _ & _ & Hg).
  cbn zeta. split.
  - apply (f_equal modelTools) in Hg. cbn in Hg. rewrite Hg.
    by destruct (resultsOf _ _).
  - intros Hne. apply (f_equal modelMessages) in Hg. cbn in Hg. rewrite Hg.
    destruct (resultsOf _ _); [by rewrite He in Hne|done].
Qed.

Lemma runPrompt_keeps_tools fuel prompt s :
  modelTools (globals (resolve fuel prompt s).1) = modelTools (globals s).
Proof.
  revert prompt s. induction fuel as [|fuel IH]; intros prompt s; [done|].
  cbn [runPrompt]. destruct (promptRound_globals prompt s) as [Ht _].
  destruct (round prompt s) as [s' [err| |]]; cbn in *; try done.
  by rewrite IH.
Qed.

Lemma outcomes_length clients w calls :
  length (outcomesOf clients w calls) = length calls.
Proof.
  revert w. induction calls as [|c calls IH]; intros w; [done|].
  cbn. destruct (outcome clients w c). cbn. by rewrite IH.
Qed.

Lemma assistantContent_uses (calls : list ToolCall) outs :
  length outs = length calls →
  filter (fun b : ContentBlock => negb (isToolResult b))
         (assistantContent jsonMarshal calls outs)
  = useBlock jsonMarshal <$> calls.
Proof.
  revert outs. induction calls as [|c calls IH]; intros [|o outs] Hlen;
    try done.
  unfold assistantContent in *. cbn [zip_with concat fmap list_fmap].
  rewrite <- app_comm_cons, filter_cons_True by done.
  rewrite filter_app, IH by (cbn in Hlen; lia).
  f_equal. destruct o as [| | |? ? ? ? [?|?]]; done.
Qed.

Lemma resultsOf_produced (calls : list ToolCall)
    (outs : list (@CallOutcome ToolArgs)) :
  length outs = length calls →
  length (resultsOf calls outs) = length (filter produced outs) ∧
  Forall (fun b => isToolResult b = true) (resultsOf calls outs).
Proof.
  revert outs. induction calls as [|c calls IH]; intros [|o outs] Hlen;
    try done.
  unfold resultsOf in *. cbn [zip_with concat].
  destruct (IH outs) as [IH1 IH2]; [cbn in Hlen; lia|].
  rewrite length_app, IH1, Forall_app.
  destruct o as [| | |? ? ? ? [?|[[?|]]]]; cbn.
  all: try (rewrite filter_cons_False by (cbn; done)).
  all: try (rewrite filter_cons_True by (cbn; done)).
  all: try (rewrite filter_cons_True by (cbn; apply bool_decide_pack; eauto)).
  all: try (rewrite filter_cons_False
             by (cbn; intros H%bool_decide_unpack; by destruct H)).
  all: split; [done|split; [|done]]; repeat constructor.
Qed.

(** C1, as amended.  When the backend answers a round with a turn of [k]
    tool calls, let [j] count the calls that are invoked, succeed and come
    back with content that is not nil.  The round appends exactly one Turn
    with the role the backend reports; leaving [tool_result] blocks aside,
    its content is the text block (if the text is not empty) followed by
    one [tool_use] block for every one of the [k] calls, in order.  When
    [j > 0] exactly one user Turn of [j] [tool_result] blocks follows and
    [runPrompt] goes on with the empty prompt; when [j = 0] no user Turn
    follows and [runPrompt] returns after this one round.  A turn without
    tool calls appends the text block alone. *)
Theorem round_appends_turns prompt s provider w (message : Message) :
  modelProvider (globals s) = Some provider →
  CreateMessage (world s) provider prompt (messages (appendPrompt prompt s))
                (modelTools (globals s)) = (w, inr message) →
  let asked := messages (appendPrompt prompt s) in
  let calls := GetToolCalls message in
  let outs := outcomesOf (modelMcpClients (globals s)) w calls in
  let j := length (filter produced outs) in
  ∃ content results,
    filter (fun b : ContentBlock => negb (isToolResult b)) content
      = textBlocks message ++ (useBlock jsonMarshal <$> calls) ∧
    (calls = [] → content = textBlocks message) ∧
    length results = j ∧
    Forall (fun b => isToolResult b = true) results ∧
    ∀ fuel,
      match j with
      | O => ∃ s', resolve (S fuel) prompt s = (s', Returned None) ∧
                   messages s' = asked ++ [Turn (GetRole message) content]
      | S _ => ∃ s', round prompt s = (s', Again) ∧
                     messages s' = asked ++ [Turn (GetRole message) content;
                                             Turn "user" results] ∧
                     resolve (S fuel) prompt s = resolve fuel "" s'
      end.
Proof.
  intros Hp Hc asked calls outs j.
  destruct (promptRound_answered _ _ _ _ _ Hp Hc) as (Hm & He & _).
  fold asked calls outs in Hm, He.
  pose proof (outcomes_length (modelMcpClients (globals s)) w calls) as Hlen.
  fold outs in Hlen.
  destruct (resultsOf_produced calls outs Hlen) as [Hj Hres].
  exists (textBlocks message ++ assistantContent jsonMarshal calls outs),
         (resultsOf calls outs).
  split; [|split; [|split; [done|split; [done|]]]].
  - rewrite filter_app, assistantContent_uses by done. f_equal.
    unfold textBlocks. destruct (decide _); [done|].
    by rewrite filter_cons_True.
  - intros Hnil. subst outs. rewrite Hnil. cbn. by rewrite app_nil_r.
  - intros fuel. fold j in Hj. cbn [runPrompt].
    destruct (round prompt s) as [s' e]. cbn [fst snd] in Hm, He.
    destruct (resultsOf calls outs) as [|b bs]; cbn in Hj; rewrite <- Hj;
      subst e; eauto.
Qed.

(** The branch [len(parts) != 2] of the loop body. *)
Lemma toolCallStep_malformed (message : Message) l toolCall :
  length (Split (GetName toolCall) "__") ≠ 2%nat →
  let l' := step message l toolCall in
  messageContent l' = messageContent l ++ [useBlock jsonMarshal toolCall] ∧
  toolResults l' = toolResults l ∧
  world (session l') = world (session l) ∧
  trace (session l') = trace (session l) ∧
  last (logged (globals (session l'))) = Some (Warn, "Invalid tool name format").
Proof.
  intros Hlen. unfold toolCallStep, useBlock.
  destruct (GetUsage message) as [inputTokens outputTokens].
  destruct (Split (GetName toolCall) "__") as [|serverName [|toolName [|? ?]]];
    try done.
  all: destruct ((inputTokens >? 0) || (outputTokens >? 0)); cbn;
    rewrite last_snoc; done.
Qed.

(** C3, as amended.  A tool call whose name does not split into exactly two
    segments at the separator is passed over with the warning
    [Invalid tool name format]: no tool is invoked, no [tool_result] block
    is added to either Turn, and the assistant content gains exactly the
    [tool_use] block of the call. *)
Theorem malformed_name_is_passed_over (message : Message) l toolCall :
  length (Split (GetName toolCall) "__") ≠ 2%nat →
  let l' := step message l toolCall in
  messageContent l' = messageContent l ++ [useBlock jsonMarshal toolCall] ∧
  toolResults l' = toolResults l ∧
  Forall (fun b : ContentBlock => isToolResult b = false)
         [useBlock jsonMarshal toolCall] ∧
  world (session l') = world (session l) ∧
  trace (session l') = trace (session l) ∧
  last (logged (globals (session l'))) = Some (Warn, "Invalid tool name format").
Proof.
  intros Hlen l'.
  destruct (toolCallStep_malformed message l toolCall Hlen)
    as (Hc & Hr & Hw & Ht & Hl).
  split; [exact Hc|]. split; [exact Hr|].
  split; [by repeat constructor|].
  split; [exact Hw|]. split; [exact Ht|exact Hl].
Qed.

Lemma Invoked_outcome clients w (toolCall : ToolCall) s t c a :
  Split (GetName toolCall) "__" = [s; t] →
  clients !! s = Some c →
  jsonUnmarshal (jsonMarshal (GetArguments toolCall)) = inr a →
  outcome clients w toolCall =
    ((CallTool w c t a).1, Invoked s c t a (CallTool w c t a).2).
Proof.
  intros Hs Hc Ha. unfold callOutcome. rewrite Hs, Hc, Ha.
  by destruct (CallTool w c t a).
Qed.

(** C5, as amended.  For a name [s ++ "__" ++ t] where the separator
    occurs neither in [t] nor in [s] followed by one underscore (so that
    the name splits into [s] and [t]): when [s] is registered and the
    arguments survive the JSON round trip, the one invocation made goes to
    the connection registered under [s], with tool name [t] and those
    arguments; when [s] is not registered the call is passed over with the
    warning [Server not found] and nothing is invoked.  A name in which
    [strings.Count] does not find exactly one separator is passed over
    with [Invalid tool name format] before any connection is looked up. *)
Theorem dispatch_routes_by_prefix (message : Message) l toolCall :
  let clients := modelMcpClients (globals (session l)) in
  let w := world (session l) in
  let l' := step message l toolCall in
  (∀ s t,
      GetName toolCall = s +:+ "__" +:+ t →
      Contains (s +:+ "_") "__" = false → Contains t "__" = false →
      (∀ c a,
          clients !! s = Some c →
          jsonUnmarshal (jsonMarshal (GetArguments toolCall)) = inr a →
          trace (session l') = trace (session l) ++ [Invoke s c t a] ∧
          world (session l') = (CallTool w c t a).1) ∧
      (clients !! s = None →
       trace (session l') = trace (session l) ∧
       world (session l') = w ∧
       toolResults l' = toolResults l ∧
       last (logged (globals (session l'))) = Some (Warn, "Server not found"))) ∧
  (Count (GetName toolCall) "__" ≠ 1%nat →
   trace (session l') = trace (session l) ∧
   world (session l') = w ∧
   toolResults l' = toolResults l ∧
   last (logged (globals (session l')))
     = Some (Warn, "Invalid tool name format")).
Proof.
  intros clients w l'. split.
  - intros s t Hname Hs Ht.
    pose proof (Split_namespaced s t Hs Ht) as Hsplit. rewrite <- Hname in Hsplit.
    split.
    + intros c a Hc Ha.
      destruct (toolCallStep_outcome message l toolCall)
        as (Hw & _ & _ & Htr & _).
      fold clients w in Hw, Htr.
      rewrite (Invoked_outcome _ _ _ _ _ _ _ Hsplit Hc Ha) in Hw, Htr.
      done.
    + intros Hc. subst l'. unfold toolCallStep.
      destruct (GetUsage message) as [inputTokens outputTokens].
      rewrite Hsplit.
      unfold clients in Hc.
      destruct ((inputTokens >? 0) || (outputTokens >? 0)).
      all: cbn; rewrite Hc; cbn; rewrite last_snoc; done.
  - intros Hcount.
    destruct (toolCallStep_malformed message l toolCall)
      as (_ & Hr & Hw & Ht & Hl); [|done].
    rewrite Split_length by done. lia.
Qed.

Lemma invocations_no_query (outs : list (@CallOutcome ToolArgs)) :
  filter isQuery (invocations outs) = [].
Proof.
  induction outs as [|o outs IH]; [done|].
  unfold invocations in *. cbn [fmap list_fmap concat].
  rewrite filter_app, IH, app_nil_r. by destruct o.
Qed.

Lemma quiet_outcomes (calls : list ToolCall) (outs : list (@CallOutcome ToolArgs)) :
  length outs = length calls →
  Forall (fun o => succeededEmpty o || skipped o) outs →
  assistantContent jsonMarshal calls outs = useBlock jsonMarshal <$> calls ∧
  resultsOf calls outs = [].
Proof.
  revert outs. induction calls as [|c calls IH]; intros [|o outs] Hlen Hq;
    try done.
  apply Forall_cons in Hq as [Ho Hq].
  destruct (IH outs) as [IH1 IH2]; [cbn in Hlen; lia|done|].
  unfold assistantContent, resultsOf in *. cbn [zip_with concat fmap list_fmap].
  rewrite IH1, IH2.
  destruct o as [| | |? ? ? ? [?|[[?|]]]]; cbn in Ho; done.
Qed.

(** C9.  A call that is invoked successfully and comes back with nil
    content adds nothing to the tool results: the loop body leaves
    [toolResults] as it was and adds only the [tool_use] block to the
    assistant content.  When every call of a round is of this kind or is
    passed over, the round appends the assistant Turn alone (text block
    and [tool_use] blocks, no [tool_result] block), no user Turn, and
    [runPrompt] returns without error after this single model query. *)
Theorem nil_content_adds_no_result :
  (∀ (message : Message) l toolCall,
      succeededEmpty (outcome (modelMcpClients (globals (session l)))
                              (world (session l)) toolCall).2 →
      toolResults (step message l toolCall) = toolResults l ∧
      messageContent (step message l toolCall)
        = messageContent l ++ [useBlock jsonMarshal toolCall]) ∧
  (∀ prompt s provider w (message : Message),
      modelProvider (globals s) = Some provider →
      CreateMessage (world s) provider prompt
                    (messages (appendPrompt prompt s))
                    (modelTools (globals s)) = (w, inr message) →
      Forall (fun o => succeededEmpty o || skipped o)
             (outcomesOf (modelMcpClients (globals s)) w
                         (GetToolCalls message)) →
      ∀ fuel, ∃ s',
        resolve (S fuel) prompt s = (s', Returned None) ∧
        messages s' =
          messages (appendPrompt prompt s) ++
          [Turn (GetRole message)
                (textBlocks message ++
                 (useBlock jsonMarshal <$> GetToolCalls message))] ∧
        filter isQuery (trace s') =
          filter isQuery (trace s) ++
          [Query prompt (messages (appendPrompt prompt s))]).
Proof.
  split.
  - intros message l toolCall Ho.
    destruct (toolCallStep_outcome message l toolCall)
      as (_ & _ & _ & _ & Hc & Hr).
    rewrite Hc, Hr.
    destruct (outcome _ _ _) as [w [| | |? ? ? ? [?|[[?|]]]]]; cbn in *;
      rewrite ?app_nil_r; done.
  - intros prompt s provider w message Hp Hc Hq fuel.
    destruct (promptRound_answered _ _ _ _ _ Hp Hc) as (Hm & He & _ & Ht & _).
    destruct (quiet_outcomes (GetToolCalls message) _
                (outcomes_length _ _ _) Hq) as [Ha Hr].
    rewrite Hr in Hm, He. rewrite Ha in Hm. cbn [runPrompt].
    destruct (round prompt s) as [s' e]. cbn [fst snd] in *. subst e.
    exists s'. split; [done|split; [done|]].
    rewrite Ht, filter_app, filter_cons_True by done.
    by rewrite invocations_no_query.
Qed.

Lemma runPrompt_failed fuel prompt s s' err :
  resolve fuel prompt s = (s', Returned (Some err)) →
  modelMessages (globals s') = modelMessages (globals s).
Proof.
  revert prompt s. induction fuel as [|fuel IH]; intros prompt s; [done|].
  cbn [runPrompt]. destruct (promptRound_globals prompt s) as [_ Hh].
  destruct (round prompt s) as [s1 [e| |]]; cbn [fst snd] in Hh.
  - intros [= -> _]. by apply Hh.
  - intros H. rewrite (IH _ _ H). by apply Hh.
  - done.
Qed.

(** C10.  When the backend call fails in round [n + 1] of a resolution,
    [n] rounds having ended in tool results, [runPrompt] returns that
    error and the global history [modelMessages] is what it was before the
    resolution began: nothing of the session was merged. *)
Theorem backend_failure_leaves_history n fuel prompt s p sn provider w err :
  afterRounds jsonMarshal jsonUnmarshal CreateMessage CallTool n prompt s
    = Some (p, sn) →
  modelProvider (globals sn) = Some provider →
  CreateMessage (world sn) provider p (messages (appendPrompt p sn))
                (modelTools (globals sn)) = (w, inl err) →
  (n < fuel)%nat →
  ∃ s', resolve fuel prompt s = (s', Returned (Some err)) ∧
        modelMessages (globals s') = modelMessages (globals s).
Proof.
  revert fuel prompt s.
  induction n as [|n IH]; intros [|fuel] prompt s Hn Hp Hc Hlt; try lia.
  - injection Hn as <- <-. cbn [runPrompt].
    rewrite (promptRound_refused _ _ _ _ _ Hp Hc).
    eexists. split; [done|]. cbn.
    destruct (appendPrompt_frame prompt s) as (_ & Hg & _).
    exact (f_equal modelMessages Hg).
  - cbn [afterRounds] in Hn. cbn [runPrompt].
    destruct (promptRound_globals prompt s) as [_ Hh].
    destruct (round prompt s) as [s1 [e| |]]; try done.
    destruct (IH fuel "" s1 Hn Hp Hc) as (s' & Hr & Hm); [lia|].
    exists s'. split; [done|]. rewrite Hm. by apply Hh.
Qed.

End OrchestrationFacts.

(** ** The tool-server registry *)

Section RegistryFacts.

Variable startError : Procs -> string -> list string -> list string -> option string.
Variable initializeError : Procs -> StdioMCPClient -> InitializeRequest -> option string.
Variable env : gmap string string.

Local Abbreviation register := (registerServers startError initializeError env).
Local Abbreviation start := (NewStdioMCPClient startError).

Lemma closeAll_live clients P :
  live (closeAll clients P) = live P ∖ pidsOf clients.
Proof.
  unfold closeAll, pidsOf.
  induction (map_to_list clients) as [|kv l IH]; cbn; [set_solver|].
  rewrite IH. set_solver.
Qed.

Lemma elem_of_pidsOf p clients :
  p ∈ pidsOf clients ↔ ∃ n c, clients !! n = Some c ∧ pid c = p.
Proof.
  unfold pidsOf. rewrite elem_of_list_to_set, list_elem_of_fmap. split.
  - intros [[n c] [-> H%elem_of_map_to_list]]. eauto.
  - intros (n & c & H & <-). exists (n, c).
    split; [done|]. by apply elem_of_map_to_list.
Qed.

Lemma pidsOf_insert name client clients :
  clients !! name = None →
  pidsOf (<[name := client]> clients) = {[pid client]} ∪ pidsOf clients.
Proof.
  intros Hfresh. apply set_eq. intros p.
  rewrite elem_of_union, elem_of_singleton, !elem_of_pidsOf. split.
  - intros (n & c & H & <-). destruct (decide (n = name)) as [->|Hne].
    + rewrite lookup_insert_eq in H. injection H as ->. by left.
    + rewrite lookup_insert_ne in H by done. right. eauto.
  - intros [->|(n & c & H & <-)].
    + exists name, client. by rewrite lookup_insert_eq.
    + exists n, c. split; [|done]. rewrite lookup_insert_ne; [done|].
      intros ->. congruence.
Qed.

Lemma registerServers_app pre rest clients P g :
  register (pre ++ rest) clients P g =
    match register pre clients P g with
    | (P1, g1, inr clients1) => register rest clients1 P1 g1
    | failed => failed
    end.
Proof.
  revert clients P g. induction pre as [|[name server] pre IH];
    intros clients P g; [done|].
  cbn [app registerServers].
  destruct (NewStdioMCPClient _ _ _ _ _) as [P1 [err|client]]; [done|].
  destruct (Initialize _ _ _ _) as [P2 [err|]]; [done|]. apply IH.
Qed.

(** While the handshakes succeed, every connection that is open was open
    before or is held by the [clients] map. *)
Lemma registerServers_registered pre clients P g P1 g1 clients1 :
  NoDup pre.*1 →
  (∀ n, n ∈ pre.*1 → clients !! n = None) →
  register pre clients P g = (P1, g1, inr clients1) →
  live P1 ⊆ live P ∪ pidsOf clients1 ∧
  pidsOf clients ⊆ pidsOf clients1.
Proof.
  revert clients P g. induction pre as [|[name server] pre IH];
    intros clients P g Hnd Hfresh.
  { intros [= <- _ <-]. set_solver. }
  cbn [registerServers]. unfold NewStdioMCPClient, Initialize.
  destruct (startError _ _ _ _); [done|].
  destruct (initializeError _ _ _); [done|].
  cbn in Hnd. apply NoDup_cons in Hnd as [Hname Hnd].
  intros Hreg. apply IH in Hreg as [Hlive Hsub]; [|done|].
  - rewrite pidsOf_insert in Hsub by (apply Hfresh; cbn; left).
    cbn in Hlive. set_solver.
  - intros n Hn. rewrite lookup_insert_ne by (intros ->; done).
    apply Hfresh. cbn. by right.
Qed.

(** C2.  Let the servers before [name] in the order of registration have
    passed their handshakes, and let the handshake of [name] fail with
    error [e], at the client creation or at [Initialize].  Then
    [createMCPClients] returns no map and propagates that error, wrapped
    with the stage and the name of the server; by then no connection is
    open that was not open before the call; every connection registered
    so far is closed, and so is the process just started, if one was. *)
Theorem failed_handshake_rolls_back pre name server post P0 g0 P1 g1 clients1 e :
  NoDup (pre ++ (name, server) :: post).*1 →
  register pre ∅ P0 g0 = (P1, g1, inr clients1) →
  handshakeError startError initializeError env server P1 = Some e →
  ∃ P' g' stage,
    createMCPClients startError initializeError env
      {| MCPServers := pre ++ (name, server) :: post |} P0 g0
      = (P', g', inl ("failed to " +:+ stage +:+ " MCP client for " +:+ name
                      +:+ ": " +:+ e)) ∧
    (stage = "create" ∧
       startError P1 (Command server) (launchEnv server) (Args server) = Some e ∨
     stage = "initialize" ∧
       startError P1 (Command server) (launchEnv server) (Args server) = None) ∧
    live P' ⊆ live P0 ∧
    (∀ n c, clients1 !! n = Some c → pid c ∉ live P') ∧
    (∀ P2 client,
        start (Command server) (launchEnv server) (Args server) P1
          = (P2, inr client) →
        pid client ∉ live P').
Proof.
  intros Hnd Hpre Hfail.
  rewrite fmap_app in Hnd. apply NoDup_app in Hnd as (Hnd & _ & _).
  destruct (registerServers_registered _ _ _ _ _ _ _ Hnd
              ltac:(intros; apply lookup_empty) Hpre) as [Hlive _].
  unfold createMCPClients. cbn [MCPServers].
  rewrite registerServers_app, Hpre. cbn [registerServers].
  unfold handshakeError in Hfail.
  destruct (start (Command server) (launchEnv server) (Args server) P1)
    as [P2 [err|client]] eqn:Hstart.
  - injection Hfail as ->. unfold NewStdioMCPClient in Hstart.
    destruct (startError _ _ _ _) as [e'|] eqn:Hse; [|done].
    injection Hstart as <- ->.
    exists (closeAll clients1 P1), g1, "create".
    split; [done|]. split; [by left|]. rewrite closeAll_live.
    split; [set_solver|split; [|done]].
    intros n c Hc. assert (pid c ∈ pidsOf clients1) by (apply elem_of_pidsOf; eauto).
    set_solver.
  - unfold Initialize in *. cbn [snd] in Hfail. rewrite Hfail.
    unfold NewStdioMCPClient in Hstart.
    destruct (startError _ _ _ _) eqn:Hse; [done|]. injection Hstart as <- <-.
    eexists _, _, "initialize".
    split; [done|]. split; [by right|]. rewrite closeAll_live. cbn [Close live].
    cbn [live pid] in *.
    split; [set_solver|split].
    + intros n c Hc.
      assert (pid c ∈ pidsOf clients1) by (apply elem_of_pidsOf; eauto).
      set_solver.
    + intros P2 client' [= _ <-]. cbn. set_solver.
Qed.

End RegistryFacts.

(** ** The catalog and the history window *)

Lemma namespaced_names_differ a b ta tb :
  a ≠ b →
  ta = tb ∨ (Contains (a +:+ "_") "__" = false ∧ Contains (b +:+ "_") "__" = false) →
  a +:+ "__" +:+ ta ≠ b +:+ "__" +:+ tb.
Proof.
  intros Hne [->|[Ha Hb]] Heq.
  - apply Hne. by apply (append_inj_l a b ("__" +:+ tb)).
  - apply (f_equal (splitFrom "__" 0)) in Heq.
    rewrite !splitFrom_clean in Heq by done. congruence.
Qed.

Section CatalogFacts.

Context {W ToolArgs : Type}.
Variable jsonMarshal : ToolArgs -> string.
Variable jsonUnmarshal : string -> string + ToolArgs.
Variable CreateMessage :
  W -> Provider -> string -> list HistoryMessage -> list Tool ->
  W * (string + @Message ToolArgs).
Variable CallTool :
  W -> StdioMCPClient -> string -> ToolArgs -> W * (string + CallToolResult).
Variable listTools : StdioMCPClient -> string + list Tool.

Lemma loadTools_catalog connected g :
  modelTools (loadTools listTools connected g)
  = modelTools g ++ catalogOf listTools connected.
Proof.
  revert g. induction connected as [|[serverName client] connected IH];
    intros g; cbn [loadTools catalogOf flat_map]; [by rewrite app_nil_r|].
  cbn [fst snd]. fold (catalogOf listTools connected).
  destruct (listTools client) as [err|tools]; rewrite IH; cbn; [done|].
  by rewrite app_assoc.
Qed.

(** C6, as amended.  Two servers with different ids [a] and [b] never
    yield the same catalog name for tools [ta] and [tb] when the tools
    have the same local name, or when neither id contains the separator
    once an underscore is put behind it (no [__] inside, no [_] at the
    end).  The catalog is the concatenation of what the servers
    advertise, so no entry replaces another, and no prompt resolution
    changes it. *)
Theorem catalog_names_distinct a b (ta tb : Tool) :
  a ≠ b →
  ToolName ta = ToolName tb ∨
  (Contains (a +:+ "_") "__" = false ∧ Contains (b +:+ "_") "__" = false) →
  (∀ x y,
      x ∈ mcpToolsToAnthropicTools a [ta] →
      y ∈ mcpToolsToAnthropicTools b [tb] →
      ToolName x ≠ ToolName y) ∧
  (∀ connected g,
      modelTools (loadTools listTools connected g)
      = modelTools g ++ catalogOf listTools connected) ∧
  (∀ fuel prompt s,
      modelTools (globals (runPrompt jsonMarshal jsonUnmarshal CreateMessage
                                     CallTool fuel prompt s).1)
      = modelTools (globals s)).
Proof.
  intros Hne Hcond. split; [|split].
  - intros x y Hx Hy. cbn in Hx, Hy.
    apply list_elem_of_singleton in Hx as ->, Hy as ->. cbn.
    by apply namespaced_names_differ.
  - apply loadTools_catalog.
  - apply runPrompt_keeps_tools.
Qed.

End CatalogFacts.

Lemma wrapInt_small z : - 2 ^ 63 <= z < 2 ^ 63 → wrapInt z = z.
Proof. intros H. unfold wrapInt. rewrite Z.mod_small; lia. Qed.

(** C7.  With a window [n >= 0] and a history of [m] turns, the history
    handler hands [min n m] turns to the serialiser, and they are the end
    of the history in its own order. *)
Theorem history_window_is_recent g :
  0 <= messageWindow g →
  Z.of_nat (length (modelMessages g)) < 2 ^ 63 →
  ∃ returned older,
    (historyHandler g).2 = Some returned ∧
    modelMessages g = older ++ returned ∧
    Z.of_nat (length returned)
    = Z.min (messageWindow g) (Z.of_nat (length (modelMessages g))).
Proof.
  intros Hn Hlen. unfold historyHandler. cbn.
  destruct (Z.of_nat (length (modelMessages g)) >? messageWindow g) eqn:Hgt.
  - apply Z.gtb_lt in Hgt. cbn. rewrite wrapInt_small by lia.
    unfold sliceFrom.
    rewrite (proj2 (Z.ltb_ge _ _)), (proj2 (Z.ltb_ge _ _)) by lia. cbn.
    eexists _, (take _ (modelMessages g)). split; [done|].
    split; [by rewrite take_drop|]. rewrite length_drop. lia.
  - assert (Z.of_nat (length (modelMessages g)) <= messageWindow g) by
      (destruct (Z.gtb_spec (Z.of_nat (length (modelMessages g))) (messageWindow g)); [done|lia]).
    cbn. exists (modelMessages g), []. split; [done|]. split; [done|]. lia.
Qed.

(** C8, on the code.  The variable is declared with the value [10], but
    loading an environment in which [MCP_MESSAGE_WINDOW] is not set, or is
    set to [ten], stores [0] in it, and the history handler then returns
    no turn of a history that has one; the port, read next to it, does
    fall back to its default. *)
Theorem unset_window_empties_history :
  let g := (LoadServerEnv None ∅ initialGlobals).2 in
  messageWindow initialGlobals = 10 ∧
  messageWindow g = 0 ∧
  (historyHandler (setMessages [Scenario.turnOf "hello"] g)).2 = Some [] ∧
  (let g' := (LoadServerEnv None {[ "MCP_MESSAGE_WINDOW" := "ten" ]} initialGlobals).2 in
   messageWindow g' = 0 ∧
   (historyHandler (setMessages [Scenario.turnOf "hello"] g')).2 = Some []) ∧
  port (NewServer ∅ initialGlobals).1 = 8115.
Proof. vm_compute. done. Qed.

(** ** The definitions at work on explicit inputs *)

Module Examples.
Import Scenario.

(** C1 fails as stated: one call that resolves (known server, well-formed
    name, successful invocation) but comes back with nil content gives
    [j = 1], and the round still ends the resolution with the assistant
    Turn last: no user Turn with one [tool_result] block follows. *)
Lemma resolved_call_without_result_turn :
  let calls := [call "c1" "fs__empty"] in
  let r := round [inr (turn "" calls)] "list /tmp" fresh in
  length (filter resolved
            (outcomes marshal unmarshal fsTools (modelMcpClients ready)
                      1%nat calls)) = 1%nat ∧
  r.2 = Merged ∧
  messages r.1 = [Turn "user" [textBlock "list /tmp"];
                  Turn "assistant" [toolUseBlock "c1" "fs__empty" "{}"]] ∧
  ¬ ∃ before results,
      messages r.1 = before ++ [Turn "user" results] ∧
      length (filter isToolResult results) = 1%nat.
Proof.
  split; [by vm_compute|]. split; [by vm_compute|]. split; [by vm_compute|].
  intros (before & results & Heq & _).
  assert (last (messages (round [inr (turn "" [call "c1" "fs__empty"])]
                                "list /tmp" fresh).1)
          = Some (Turn "user" results)) as Hlast
    by (rewrite Heq; apply last_snoc).
  vm_compute in Hlast. discriminate Hlast.
Qed.

(** C1, as amended, on a turn of three calls: one produces content, one is
    malformed, one fails. *)
Lemma round_appends_turns_witness :
  let calls := [call "c1" "fs__list"; call "c2" "nope"; call "c3" "fs__boom"] in
  let script := [inr (turn "ok" calls); inr (turn "done" [])] in
  modelProvider (globals fresh) = Some provider ∧
  backend script (world fresh) provider "hi"
          (messages (appendPrompt "hi" fresh)) (modelTools (globals fresh))
    = (1%nat, inr (turn "ok" calls)) ∧
  ∃ content results s',
    filter (fun b : ContentBlock => negb (isToolResult b)) content
      = textBlock "ok" :: (useBlock marshal <$> calls) ∧
    length results = 1%nat ∧
    round script "hi" fresh = (s', Again) ∧
    messages s' = [Turn "user" [textBlock "hi"]; Turn "assistant" content;
                   Turn "user" results].
Proof.
  intros calls script. split; [reflexivity|]. split; [reflexivity|].
  destruct (round_appends_turns marshal unmarshal (backend script) fsTools
              "hi" fresh provider 1%nat (turn "ok" calls) eq_refl eq_refl)
    as (content & results & Hc & _ & Hlen & _ & Hrun).
  specialize (Hrun O). destruct Hrun as (s' & Hr & Hm & _).
  exists content, results, s'. split; [exact Hc|]. split; [exact Hlen|].
  split; [exact Hr|exact Hm].
Defined.

(** C3 fails as stated: the call named [listfiles] does not split in two,
    and its [tool_use] block is in the assistant Turn all the same. *)
Lemma malformed_call_keeps_tool_use :
  let bad := call "c1" "listfiles" in
  let r := round [inr (turn "" [bad])] "list /tmp" fresh in
  length (Split (GetName bad) "__") ≠ 2%nat ∧
  messageContent (toolCallStep marshal unmarshal fsTools (turn "" [bad])
                               idle bad)
    = [toolUseBlock "c1" "listfiles" "{}"] ∧
  messages r.1 = [Turn "user" [textBlock "list /tmp"];
                  Turn "assistant" [toolUseBlock "c1" "listfiles" "{}"]].
Proof. by vm_compute. Qed.

(** C3, as amended, on the same call. *)
Lemma malformed_name_is_passed_over_witness :
  let bad := call "c1" "listfiles" in
  let l' := toolCallStep marshal unmarshal fsTools (turn "" [bad]) idle bad in
  length (Split (GetName bad) "__") ≠ 2%nat ∧
  messageContent l' = [useBlock marshal bad] ∧
  toolResults l' = [] ∧
  trace (session l') = [].
Proof.
  intros bad l'.
  assert (length (Split (GetName bad) "__") ≠ 2%nat) as Hbad by (by vm_compute).
  split; [exact Hbad|].
  destruct (malformed_name_is_passed_over marshal unmarshal fsTools
              (turn "" [bad]) idle bad Hbad) as (Hc & Hr & _ & _ & Ht & _).
  split; [exact Hc|]. split; [exact Hr|exact Ht].
Defined.

(** C4, on the code.  One call to the registered server [fs] whose
    invocation fails: the error block is put into the assistant Turn
    behind the [tool_use] block, no user Turn is appended, the backend is
    queried once and never sees the error, and the resolution returns
    and merges these two turns. *)
Theorem tool_error_block_joins_assistant_turn :
  let r := run [inr (turn "" [call "c1" "fs__read"])] 1 "read it" fresh in
  r.2 = Returned None ∧
  messages r.1
    = [Turn "user" [textBlock "read it"];
       Turn "assistant"
            [toolUseBlock "c1" "fs__read" "{}";
             errorResultBlock "c1" "read" "connection reset"]] ∧
  trace r.1 = [Query "read it" [Turn "user" [textBlock "read it"]];
               Invoke "fs" fsClient "read" "{}"] ∧
  modelMessages (globals r.1) = messages r.1.
Proof. by vm_compute. Qed.

(** C5 fails as stated: with servers [fs] and [fs_] registered, the name
    [fs_ ++ "__" ++ list], in which neither part contains the separator
    and [strings.Count] finds it once, goes to the connection of [fs] as
    tool [_list]. *)
Lemma underscore_suffix_is_misrouted :
  let toolCall := call "c1" ("fs_" +:+ "__" +:+ "list") in
  let l' := toolCallStep marshal unmarshal fsTools (turn "" [toolCall])
                         idleTwo toolCall in
  Contains "fs_" "__" = false ∧ Contains "list" "__" = false ∧
  Count (GetName toolCall) "__" = 1%nat ∧
  modelMcpClients (globals (session idleTwo)) !! "fs_" = Some otherClient ∧
  trace (session l') = [Invoke "fs" fsClient "_list" "{}"] ∧
  trace (session l') ≠ [Invoke "fs_" otherClient "list" "{}"].
Proof. by vm_compute. Qed.

(** C5, as amended, on the name [fs__list]. *)
Lemma dispatch_routes_by_prefix_witness :
  let toolCall := call "c1" "fs__list" in
  let l' := toolCallStep marshal unmarshal fsTools (turn "" [toolCall])
                         idle toolCall in
  GetName toolCall = "fs" +:+ "__" +:+ "list" ∧
  Contains ("fs" +:+ "_") "__" = false ∧ Contains "list" "__" = false ∧
  modelMcpClients (globals (session idle)) !! "fs" = Some fsClient ∧
  unmarshal (marshal (GetArguments toolCall)) = inr "{}" ∧
  trace (session l') = [Invoke "fs" fsClient "list" "{}"].
Proof.
  intros toolCall l'.
  split; [reflexivity|]. split; [reflexivity|]. split; [reflexivity|].
  split; [reflexivity|]. split; [reflexivity|].
  destruct (dispatch_routes_by_prefix marshal unmarshal fsTools
              (turn "" [toolCall]) idle toolCall) as [Hroute _].
  destruct (Hroute "fs" "list" eq_refl eq_refl eq_refl) as [Hknown _].
  destruct (Hknown fsClient "{}" eq_refl eq_refl) as [Ht _].
  exact Ht.
Defined.

(** C6 fails as stated: server [x] advertising [_y] and server [x_]
    advertising [y] both enter the catalog as [x___y]. *)
Lemma underscore_names_collide :
  "x" ≠ "x_" ∧
  ToolName <$> modelTools (loadTools listTools twoServers ready)
    = ["x___y"; "x___y"].
Proof. by vm_compute. Qed.

(** C6, as amended, on two servers that both advertise [status]. *)
Lemma catalog_names_distinct_witness :
  "fs" ≠ "git" ∧
  ToolName (tool "status") = ToolName (tool "status") ∧
  ∀ x y,
    x ∈ mcpToolsToAnthropicTools "fs" [tool "status"] →
    y ∈ mcpToolsToAnthropicTools "git" [tool "status"] →
    ToolName x ≠ ToolName y.
Proof.
  assert ("fs" ≠ "git") as Hne by discriminate.
  split; [exact Hne|]. split; [reflexivity|].
  exact (proj1 (catalog_names_distinct marshal unmarshal (backend []) fsTools
                  listTools "fs" "git" (tool "status") (tool "status")
                  Hne (or_introl eq_refl))).
Defined.

(** C7 on a window of two over three turns. *)
Lemma history_window_is_recent_witness :
  0 <= messageWindow threeTurns ∧
  Z.of_nat (length (modelMessages threeTurns)) < 2 ^ 63 ∧
  ∃ returned older,
    (historyHandler threeTurns).2 = Some returned ∧
    modelMessages threeTurns = older ++ returned ∧
    Z.of_nat (length returned) = 2.
Proof.
  assert (0 <= messageWindow threeTurns) as Hn by (by vm_compute).
  assert (Z.of_nat (length (modelMessages threeTurns)) < 2 ^ 63) as Hlen
    by (by vm_compute).
  split; [exact Hn|]. split; [exact Hlen|].
  exact (history_window_is_recent threeTurns Hn Hlen).
Defined.

(** C9 on a turn of three calls: nil content, unknown server, malformed
    name. *)
Lemma nil_content_adds_no_result_witness :
  let calls := [call "c1" "fs__empty"; call "c2" "ghost__tool";
                call "c3" "bad"] in
  let script := [inr (turn "hm" calls)] in
  modelProvider (globals fresh) = Some provider ∧
  backend script (world fresh) provider "hi"
          (messages (appendPrompt "hi" fresh)) (modelTools (globals fresh))
    = (1%nat, inr (turn "hm" calls)) ∧
  Forall (fun o => succeededEmpty o || skipped o)
         (outcomes marshal unmarshal fsTools (modelMcpClients (globals fresh))
                   1%nat calls) ∧
  ∃ s', run script 1 "hi" fresh = (s', Returned None) ∧
        messages s' = [Turn "user" [textBlock "hi"];
                       Turn "assistant"
                            (textBlock "hm" :: (useBlock marshal <$> calls))].
Proof.
  intros calls script.
  assert (Forall (fun o => succeededEmpty o || skipped o)
            (outcomes marshal unmarshal fsTools
                      (modelMcpClients (globals fresh)) 1%nat calls)) as Hq.
  { vm_compute. repeat constructor. }
  split; [reflexivity|]. split; [reflexivity|]. split; [exact Hq|].
  destruct (proj2 (nil_content_adds_no_result marshal unmarshal
                     (backend script) fsTools)
              "hi" fresh provider 1%nat (turn "hm" calls)
              eq_refl eq_refl Hq O) as (s' & Hr & Hm & _).
  exists s'. split; [exact Hr|exact Hm].
Defined.

(** C10 on a resolution whose second round finds the backend down: the
    session holds three turns by then, the history stays empty. *)
Lemma backend_failure_leaves_history_witness :
  let s1 := (round failing "list /tmp" fresh).1 in
  afterRounds marshal unmarshal (backend failing) fsTools 1 "list /tmp" fresh
    = Some ("", s1) ∧
  modelProvider (globals s1) = Some provider ∧
  backend failing (world s1) provider "" (messages (appendPrompt "" s1))
          (modelTools (globals s1)) = (2%nat, inl "backend down") ∧
  (1 < 2)%nat ∧
  length (messages s1) = 3%nat ∧
  ∃ s', run failing 2 "list /tmp" fresh = (s', Returned (Some "backend down")) ∧
        modelMessages (globals s') = [].
Proof.
  intros s1.
  assert (afterRounds marshal unmarshal (backend failing) fsTools 1
                      "list /tmp" fresh = Some ("", s1)) as Hn
    by (vm_compute; reflexivity).
  assert (modelProvider (globals s1) = Some provider) as Hp
    by (vm_compute; reflexivity).
  assert (backend failing (world s1) provider "" (messages (appendPrompt "" s1))
                  (modelTools (globals s1)) = (2%nat, inl "backend down")) as Hc
    by (vm_compute; reflexivity).
  split; [exact Hn|]. split; [exact Hp|]. split; [exact Hc|].
  split; [lia|]. split; [vm_compute; reflexivity|].
  exact (backend_failure_leaves_history marshal unmarshal (backend failing)
           fsTools 1 2 "list /tmp" fresh "" s1 provider 2%nat "backend down"
           Hn Hp Hc ltac:(lia)).
Defined.

(** C2 on three servers of which the second does not answer the
    handshake. *)
Lemma failed_handshake_rolls_back_witness :
  let a := {| pid := 0; command := "ok" |} in
  let P1 := {| nextPid := 1; live := {[ 0%nat ]} |} in
  NoDup threeServers.*1 ∧
  registerServers startError initializeError ∅ [("a", server "ok")] ∅
                  noProcs ready
    = (P1, log Info "Initializing server..." ready, inr {[ "a" := a ]}) ∧
  handshakeError startError initializeError ∅ (server "mute") P1
    = Some "context deadline exceeded" ∧
  ∃ P' g',
    createMCPClients startError initializeError ∅
                     {| MCPServers := threeServers |} noProcs ready
      = (P', g',
         inl "failed to initialize MCP client for b: context deadline exceeded") ∧
    live P' ⊆ live noProcs.
Proof.
  intros a P1.
  assert (NoDup threeServers.*1) as Hnd
    by (apply (bool_decide_unpack _); by vm_compute).
  split; [exact Hnd|]. split; [reflexivity|]. split; [reflexivity|].
  destruct (failed_handshake_rolls_back startError initializeError ∅
              [("a", server "ok")] "b" (server "mute") [("c", server "ok")]
              noProcs ready P1 (log Info "Initializing server..." ready)
              {[ "a" := a ]} "context deadline exceeded" Hnd eq_refl eq_refl)
    as (P' & g' & stage & Hr & [[-> Hs]|[-> _]] & Hsub & _).
  - discriminate Hs.
  - exists P', g'. split; [exact Hr|exact Hsub].
Defined.

End Examples.

(** ** Further properties of the orchestration loop, the registry and startup *)

Section OrchestrationInvariants.

Context {W ToolArgs : Type}.
Variable jsonMarshal : ToolArgs -> string.
Variable jsonUnmarshal : string -> string + ToolArgs.
Variable CreateMessage :
  W -> Provider -> string -> list HistoryMessage -> list Tool ->
  W * (string + @Message ToolArgs).
Variable CallTool :
  W -> StdioMCPClient -> string -> ToolArgs -> W * (string + CallToolResult).

Local Abbreviation outcome := (callOutcome jsonMarshal jsonUnmarshal CallTool).
Local Abbreviation outcomesOf := (outcomes jsonMarshal jsonUnmarshal CallTool).
Local Abbreviation round := (promptRound jsonMarshal jsonUnmarshal CreateMessage CallTool).
Local Abbreviation resolve := (runPrompt jsonMarshal jsonUnmarshal CreateMessage CallTool).
Local Abbreviation handle := (promptHandler jsonMarshal jsonUnmarshal CreateMessage CallTool).

Lemma appendPrompt_messages prompt (s : @Session W ToolArgs) :
  messages (appendPrompt prompt s) =
    messages s ++ (if decide (prompt = "") then []
                   else [Turn "user" [textBlock prompt]]).
Proof. unfold appendPrompt. destruct (decide _); cbn; by rewrite ?app_nil_r. Qed.

Lemma invocations_within clients w calls :
  Forall (withinRegistry clients) (invocations (outcomesOf clients w calls)).
Proof.
  revert w. induction calls as [|c calls IH]; intros w; [constructor|].
  cbn [outcomes]. destruct (outcome clients w c) as [w' o] eqn:Ho.
  unfold invocations. cbn [fmap list_fmap concat]. apply Forall_app. split; [|apply IH].
  unfold callOutcome in Ho.
  destruct (Split (GetName c) "__") as [|serverName [|toolName [|? ?]]];
    try (injection Ho as _ <-; constructor).
  destruct (clients !! serverName) as [client|] eqn:Hc;
    [|injection Ho as _ <-; constructor].
  destruct (jsonUnmarshal _) as [?|a]; [injection Ho as _ <-; constructor|].
  destruct (CallTool w client toolName a) as [w1 res].
  injection Ho as _ <-. cbn. by repeat constructor.
Qed.

(** What a round does to the session, whatever its end. *)
Lemma promptRound_extends prompt s :
  let r := round prompt s in
  (∃ new, messages r.1 = messages (appendPrompt prompt s) ++ new ∧
          (r.2 = Merged → new ≠ [])) ∧
  (∃ events, trace r.1 = trace s ++ events ∧
             Forall (withinRegistry (modelMcpClients (globals s))) events) ∧
  modelMcpClients (globals r.1) = modelMcpClients (globals s) ∧
  modelProvider (globals r.1) = modelProvider (globals s) ∧
  modelMessages (globals r.1) =
    match r.2 with
    | Merged => modelMessages (globals s) ++ messages r.1
    | _ => modelMessages (globals s)
    end.
Proof.
  destruct (appendPrompt_frame prompt s) as (_ & Hg0 & Ht0).
  destruct (modelProvider (globals s)) as [provider|] eqn:Hp.
  2:{ rewrite (promptRound_uninitialised jsonMarshal jsonUnmarshal CreateMessage CallTool _ _ Hp). cbn.
      split; [exists []; rewrite app_nil_r; split; [done|]; by intros [=]|].
      split; [exists []; rewrite app_nil_r, Ht0; by split|].
      split; [exact (f_equal modelMcpClients Hg0)|].
      split; [rewrite <- Hp; exact (f_equal modelProvider Hg0)|].
      exact (f_equal modelMessages Hg0). }
  destruct (CreateMessage (world s) provider prompt
              (messages (appendPrompt prompt s)) (modelTools (globals s)))
    as [w [err|message]] eqn:Hc.
  { rewrite (promptRound_refused jsonMarshal jsonUnmarshal CreateMessage CallTool _ _ _ _ _ Hp Hc). cbn.
    split; [exists []; rewrite app_nil_r; split; [done|]; by intros [=]|].
    split; [eexists; rewrite Ht0; split; [done|]; by repeat constructor|].
    split; [exact (f_equal modelMcpClients Hg0)|].
    split; [rewrite <- Hp; exact (f_equal modelProvider Hg0)|].
    exact (f_equal modelMessages Hg0). }
  destruct (promptRound_answered jsonMarshal jsonUnmarshal CreateMessage CallTool _ _ _ _ _ Hp Hc)
    as (Hm & He & _ & Ht & Hg).
  cbn zeta. split; [|split; [|split; [|split]]].
  - eexists. split; [exact Hm|]. by intros _.
  - eexists. split; [exact Ht|]. constructor; [done|apply invocations_within].
  - apply (f_equal modelMcpClients) in Hg. cbn in Hg. rewrite Hg.
    by destruct (resultsOf _ _).
  - apply (f_equal modelProvider) in Hg. cbn in Hg. rewrite Hg, <- Hp.
    by destruct (resultsOf _ _).
  - apply (f_equal modelMessages) in Hg. cbn in Hg. rewrite Hg, He.
    by destruct (resultsOf _ _).
Qed.

Lemma runPrompt_extends fuel prompt s :
  let r := resolve fuel prompt s in
  (∃ new, messages r.1 = messages s ++ new) ∧
  (r.2 = Returned None →
   ∃ new, messages r.1 = messages (appendPrompt prompt s) ++ new ∧ new ≠ []) ∧
  (∃ events, trace r.1 = trace s ++ events ∧
             Forall (withinRegistry (modelMcpClients (globals s))) events) ∧
  modelMcpClients (globals r.1) = modelMcpClients (globals s) ∧
  modelMessages (globals r.1) =
    match r.2 with
    | Returned None => modelMessages (globals s) ++ messages r.1
    | _ => modelMessages (globals s)
    end.
Proof.
  revert prompt s. induction fuel as [|fuel IH]; intros prompt s.
  { cbn. split; [exists []; by rewrite app_nil_r|]. split; [done|].
    split; [exists []; by rewrite app_nil_r|]. done. }
  cbn zeta. cbn [runPrompt].
  destruct (promptRound_extends prompt s)
    as ((new & Hm & Hne) & (events & Ht & Hw) & Hc & _ & Hh).
  rewrite appendPrompt_messages in Hm.
  destruct (round prompt s) as [s1 [err| |]]; cbn [fst snd] in *.
  - split; [eexists; by rewrite Hm, <- app_assoc|]. split; [done|].
    split; [by eexists|]. done.
  - destruct (IH "" s1) as ((new' & Hm') & Hok & (events' & Ht' & Hw') & Hc' & Hh').
    split; [eexists; by rewrite Hm', Hm, <- !app_assoc|].
    split.
    + intros Hr. destruct (Hok Hr) as (new2 & Hm2 & Hne2).
      rewrite appendPrompt_messages in Hm2. cbn in Hm2.
      rewrite app_nil_r in Hm2.
      exists (new ++ new2). rewrite appendPrompt_messages.
      split; [by rewrite Hm2, Hm, <- !app_assoc|].
      intros [_ ?]%app_eq_nil. done.
    + split; [|split; [congruence|by rewrite Hh', Hh]].
      exists (events ++ events'). split; [by rewrite Ht', Ht, <- app_assoc|].
      apply Forall_app. split; [done|]. by rewrite <- Hc.
  - split; [eexists; by rewrite Hm, <- app_assoc|].
    split; [|split; [by eexists|done]].
    intros _. exists new. rewrite appendPrompt_messages. split; [done|by apply Hne].
Qed.

(** X1.  Whatever a prompt resolution does (return, fail, or run out of
    rounds), the caller's messages and the global history only grow at the
    end: the old sequences are prefixes of the new.  The global history
    changes in one case only, a return without error, and then it gains
    the whole of the caller's messages at once. *)
Theorem runPrompt_appends_only fuel prompt s :
  let r := runPrompt jsonMarshal jsonUnmarshal CreateMessage CallTool
                     fuel prompt s in
  messages s `prefix_of` messages r.1 ∧
  modelMessages (globals s) `prefix_of` modelMessages (globals r.1) ∧
  modelMessages (globals r.1) =
    match r.2 with
    | Returned None => modelMessages (globals s) ++ messages r.1
    | _ => modelMessages (globals s)
    end.
Proof.
  destruct (runPrompt_extends fuel prompt s) as ((new & Hm) & _ & _ & _ & Hh).
  cbn zeta. split; [by exists new|]. split; [|done].
  rewrite Hh. destruct (resolve fuel prompt s).2 as [|[err|]];
    try done. by eexists.
Qed.

Lemma invocation_of_use clients w c :
  invocation (outcome clients w c).2
  = option_list (invocationOf jsonUnmarshal clients (useBlock jsonMarshal c)).
Proof.
  unfold callOutcome, invocationOf, useBlock. cbn [Name Input toolUseBlock].
  destruct (Split (GetName c) "__") as [|serverName [|toolName [|? ?]]];
    try done.
  destruct (clients !! serverName) as [client|]; [|done].
  destruct (jsonUnmarshal _) as [?|a]; [done|].
  by destruct (CallTool w client toolName a) as [w1 res].
Qed.

Lemma invocations_of_uses clients w calls :
  invocations (outcomesOf clients w calls)
  = omap (invocationOf jsonUnmarshal clients) (useBlock jsonMarshal <$> calls).
Proof.
  revert w. induction calls as [|c calls IH]; intros w; [done|].
  cbn [outcomes fmap list_fmap omap list_omap].
  pose proof (invocation_of_use clients w c) as Hc.
  destruct (outcome clients w c) as [w' o].
  unfold invocations in *. cbn [fmap list_fmap concat]. rewrite IH.
  cbn [snd] in Hc. rewrite Hc.
  by destruct (invocationOf jsonUnmarshal clients (useBlock jsonMarshal c)).
Qed.

Lemma invokes_invocations (outs : list (@CallOutcome ToolArgs)) :
  invokes (invocations outs) = invocations outs.
Proof.
  induction outs as [|o outs IH]; [done|].
  unfold invokes, invocations in *. cbn [fmap list_fmap concat].
  rewrite filter_app, IH. f_equal. by destruct o.
Qed.

Lemma assistantContent_toolUses (calls : list ToolCall)
    (outs : list (@CallOutcome ToolArgs)) :
  length outs = length calls →
  filter isToolUse (assistantContent jsonMarshal calls outs)
  = useBlock jsonMarshal <$> calls.
Proof.
  revert outs. induction calls as [|c calls IH]; intros [|o outs] Hlen;
    try done.
  unfold assistantContent in *. cbn [zip_with concat fmap list_fmap].
  rewrite <- app_comm_cons, filter_cons_True by done.
  rewrite filter_app, IH by (cbn in Hlen; lia).
  f_equal. destruct o as [| | |? ? ? ? [?|?]]; done.
Qed.

Lemma resultsOf_toolUses (calls : list ToolCall)
    (outs : list (@CallOutcome ToolArgs)) :
  filter isToolUse (resultsOf calls outs) = [].
Proof.
  revert outs. induction calls as [|c calls IH]; intros [|o outs]; try done.
  unfold resultsOf in *. cbn [zip_with concat]. rewrite filter_app, IH.
  by destruct o as [| | |? ? ? ? [?|[[?|]]]].
Qed.

Lemma toolUses_app turns turns' :
  toolUses (turns ++ turns') = toolUses turns ++ toolUses turns'.
Proof. unfold toolUses. by rewrite fmap_app, concat_app, filter_app. Qed.

(** The invocations of a round are those its [tool_use] blocks ask for. *)
Lemma promptRound_dispatches prompt s :
  let r := round prompt s in
  ∃ events new,
    trace r.1 = trace s ++ events ∧
    messages r.1 = messages s ++ new ∧
    invokes events
    = omap (invocationOf jsonUnmarshal (modelMcpClients (globals s)))
           (toolUses new).
Proof.
  destruct (appendPrompt_frame prompt s) as (_ & _ & Ht0).
  pose proof (appendPrompt_messages prompt s) as Hm0.
  assert (toolUses (if decide (prompt = "") then []
                    else [Turn "user" [textBlock prompt]]) = []) as Hp0
    by (by destruct (decide _)).
  destruct (modelProvider (globals s)) as [provider|] eqn:Hp.
  2:{ rewrite (promptRound_uninitialised jsonMarshal jsonUnmarshal
                 CreateMessage CallTool _ _ Hp). cbn.
      eexists [], _. rewrite app_nil_r, Ht0. split; [done|].
      split; [exact Hm0|]. by rewrite Hp0. }
  destruct (CreateMessage (world s) provider prompt
              (messages (appendPrompt prompt s)) (modelTools (globals s)))
    as [w [err|message]] eqn:Hc.
  { rewrite (promptRound_refused jsonMarshal jsonUnmarshal CreateMessage
               CallTool _ _ _ _ _ Hp Hc). cbn.
    eexists [_], _. rewrite Ht0. split; [done|].
    split; [exact Hm0|]. by rewrite Hp0. }
  destruct (promptRound_answered jsonMarshal jsonUnmarshal CreateMessage
              CallTool _ _ _ _ _ Hp Hc) as (Hm & _ & _ & Ht & _).
  cbn zeta. rewrite Hm0 in Hm. rewrite <- app_assoc in Hm.
  eexists _, _. split; [exact Ht|]. split; [exact Hm|].
  unfold invokes. rewrite filter_cons_False by (cbn; tauto).
  fold (invokes (invocations (outcomesOf (modelMcpClients (globals s)) w
                                         (GetToolCalls message)))).
  rewrite invokes_invocations, invocations_of_uses, toolUses_app, Hp0.
  cbn [app]. f_equal.
  set (outs := outcomesOf _ _ _).
  assert (toolUses [Turn (GetRole message)
                         (textBlocks message ++
                          assistantContent jsonMarshal (GetToolCalls message) outs)]
          = useBlock jsonMarshal <$> GetToolCalls message) as Hu.
  { unfold toolUses. cbn. rewrite app_nil_r, filter_app.
    rewrite assistantContent_toolUses
      by apply (outcomes_length jsonMarshal jsonUnmarshal CallTool).
    unfold textBlocks. destruct (decide (GetContent message = "")); [done|].
    by rewrite filter_cons_False, filter_nil by (cbn; tauto). }
  destruct (resultsOf (GetToolCalls message) outs) as [|b bs] eqn:Hres;
    [by rewrite Hu|].
  change [Turn (GetRole message) _; Turn "user" (b :: bs)]
    with ([Turn (GetRole message)
                (textBlocks message ++
                 assistantContent jsonMarshal (GetToolCalls message) outs)]
          ++ [Turn "user" (b :: bs)]).
  rewrite toolUses_app, Hu, <- Hres. unfold toolUses. cbn.
  by rewrite app_nil_r, resultsOf_toolUses, app_nil_r.
Qed.

Lemma runPrompt_dispatches fuel prompt s :
  let r := resolve fuel prompt s in
  ∃ events new,
    trace r.1 = trace s ++ events ∧
    messages r.1 = messages s ++ new ∧
    invokes events
    = omap (invocationOf jsonUnmarshal (modelMcpClients (globals s)))
           (toolUses new).
Proof.
  revert prompt s. induction fuel as [|fuel IH]; intros prompt s.
  { exists [], []. cbn. by rewrite !app_nil_r. }
  cbn zeta. cbn [runPrompt].
  destruct (promptRound_dispatches prompt s) as (events & new & Ht & Hm & Hi).
  destruct (promptRound_extends prompt s) as (_ & _ & Hc & _).
  destruct (round prompt s) as [s1 [err| |]]; cbn [fst snd] in *;
    try by exists events, new.
  destruct (IH "" s1) as (events' & new' & Ht' & Hm' & Hi').
  exists (events ++ events'), (new ++ new').
  rewrite Ht', Ht, Hm', Hm, <- !app_assoc. split; [done|]. split; [done|].
  unfold invokes in *. rewrite filter_app, toolUses_app, omap_app, Hi, Hi', Hc.
  done.
Qed.

(** X2.  The tool invocations a prompt resolution makes are exactly, and in
    order, the ones its [tool_use] blocks ask for: for each block the
    session gained whose name splits at the separator into a server that
    is registered and a tool, and whose input parses, one invocation on
    the connection registered under that server, with that tool name and
    those arguments; nothing else is invoked, so no tool is invoked on a
    server that is not registered. *)
Theorem runPrompt_invokes_registered fuel prompt s :
  let r := runPrompt jsonMarshal jsonUnmarshal CreateMessage CallTool
                     fuel prompt s in
  ∃ events new,
    trace r.1 = trace s ++ events ∧
    messages r.1 = messages s ++ new ∧
    invokes events
    = omap (invocationOf jsonUnmarshal (modelMcpClients (globals s)))
           (toolUses new) ∧
    Forall (withinRegistry (modelMcpClients (globals s))) events.
Proof.
  destruct (runPrompt_dispatches fuel prompt s) as (events & new & Ht & Hm & Hi).
  destruct (runPrompt_extends fuel prompt s) as (_ & _ & (events' & Ht' & Hw) & _).
  exists events, new. cbn zeta. split; [done|]. split; [done|]. split; [done|].
  rewrite Ht in Ht'. by apply app_inv_head in Ht' as ->.
Qed.

(** X3.  When the prompt handler answers with turns, they begin with the
    user Turn of the prompt, at least one more Turn follows, and the
    global history has grown by exactly these turns. *)
Theorem promptHandler_returns_session fuel prompt w g s turns :
  handle fuel prompt w g = (s, Some (inr turns)) →
  ∃ rest,
    turns = Turn "user" [textBlock prompt] :: rest ∧ rest ≠ [] ∧
    modelMessages (globals s) = modelMessages g ++ turns.
Proof.
  unfold promptHandler. destruct (decide (prompt = "")) as [|Hne]; [done|].
  set (s0 := {| world := w; globals := g; messages := []; trace := [] |}).
  destruct (runPrompt_extends fuel prompt s0) as (_ & Hok & _ & _ & Hh).
  destruct (resolve fuel prompt s0) as [s1 [|[err|]]]; try done.
  intros [= <- <-]. cbn [fst snd] in *.
  destruct (Hok eq_refl) as (new & Hm & Hnew).
  rewrite appendPrompt_messages in Hm. cbn in Hm.
  destruct (decide (prompt = "")); [done|].
  exists new. by rewrite Hh, Hm.
Qed.

(** Without a provider the handler answers at once. *)
Lemma promptHandler_uninitialised fuel prompt w g :
  prompt ≠ "" → modelProvider g = None →
  ∃ s,
    handle (S fuel) prompt w g
      = (s, Some (inl "Error executing prompt: model provider not initialized")) ∧
    world s = w ∧ trace s = [] ∧
    modelMessages (globals s) = modelMessages g.
Proof.
  intros Hne Hp. unfold promptHandler.
  destruct (decide (prompt = "")); [done|]. cbn [runPrompt].
  rewrite (promptRound_uninitialised jsonMarshal jsonUnmarshal CreateMessage
             CallTool) by done.
  eexists. split; [done|]. unfold appendPrompt.
  destruct (decide (prompt = "")); done.
Qed.





End OrchestrationInvariants.

Lemma string_app_assoc a b c : (a +:+ b) +:+ c = a +:+ b +:+ c.
Proof.
  induction a as [|x a IH]; [done|].
  change (String x ((a +:+ b) +:+ c) = String x (a +:+ b +:+ c)). by rewrite IH.
Qed.

Lemma string_app_empty a : a +:+ "" = a.
Proof.
  induction a as [|x a IH]; [done|].
  change (String x (a +:+ "") = String x a). by rewrite IH.
Qed.

Lemma list_ascii_app_space s :
  list_ascii_of_string (s +:+ " ") = list_ascii_of_string s ++ [" "%char].
Proof.
  induction s as [|c s IH]; [done|].
  change (String c s +:+ " ") with (String c (s +:+ " ")).
  cbn [list_ascii_of_string]. by rewrite IH.
Qed.

Lemma space2_blank a : space2 a " " = false.
Proof. unfold space2. cbn. apply andb_false_r. Qed.

Lemma space3_blank a b : space3 a b " " = false.
Proof.
  unfold space3. change (nat_of_ascii " ") with 32%nat. cbn.
  by rewrite !andb_false_r.
Qed.

Lemma trimFront_cons a l1 :
  trimFront (a :: l1)
  = if asciiSpace a then trimFront l1
    else match l1 with
         | b :: l2 =>
             if space2 a b then trimFront l2
             else match l2 with
                  | c :: l3 => if space3 a b c then trimFront l3 else a :: l1
                  | [] => a :: l1
                  end
         | [] => a :: l1
         end.
Proof. done. Qed.

(** A blank after the text is behind what the left trim stops at, or is
    trimmed with the rest. *)
Lemma trimFront_app_space l :
  trimFront (l ++ [" "%char])
  = match trimFront l with [] => [] | t => t ++ [" "%char] end.
Proof.
  remember (length l) as n eqn:Hn.
  revert l Hn. induction (lt_wf n) as [n _ IH]. intros l ->.
  destruct l as [|a l1]; [done|]. cbn [app].
  rewrite (trimFront_cons a (l1 ++ _)), (trimFront_cons a l1).
  destruct (asciiSpace a).
  { apply (IH (length l1)); [cbn; lia|done]. }
  destruct l1 as [|b l2]; cbn [app]; [by rewrite space2_blank|].
  destruct (space2 a b).
  { apply (IH (length l2)); [cbn; lia|done]. }
  destruct l2 as [|c l3]; cbn [app]; [by rewrite space3_blank|].
  destruct (space3 a b c); [|done].
  apply (IH (length l3)); [cbn; lia|done].
Qed.

Lemma TrimSpace_app_space s : TrimSpace (s +:+ " ") = TrimSpace s.
Proof.
  unfold TrimSpace. rewrite list_ascii_app_space, trimFront_app_space.
  destruct (trimFront (list_ascii_of_string s)) as [|a t]; [done|].
  by rewrite rev_app_distr.
Qed.

Lemma resultText_from acc content :
  foldl (fun text item =>
           match item with
           | ItemObject contentMap =>
               match contentMap !! "text" with
               | Some t => text +:+ t +:+ " "
               | None => text
               end
           | ItemOther _ => text
           end) acc content
  = acc +:+ resultText content.
Proof.
  unfold resultText. revert acc.
  induction content as [|item content IH]; intros acc; cbn [foldl].
  { by rewrite string_app_empty. }
  rewrite IH, (IH (match item with
                   | ItemObject contentMap =>
                       match contentMap !! "text" with
                       | Some t => "" +:+ t +:+ " "
                       | None => ""
                       end
                   | ItemOther _ => ""
                   end)).
  rewrite <- string_app_assoc. f_equal.
  destruct item as [contentMap|?]; [|by rewrite string_app_empty].
  destruct (contentMap !! "text"); [done|by rewrite string_app_empty].
Qed.

Lemma resultText_joined content :
  textsOf content ≠ [] →
  resultText content = String.concat " " (textsOf content) +:+ " ".
Proof.
  induction content as [|item content IH]; [done|]. intros Hne.
  unfold resultText. cbn [foldl]. rewrite resultText_from.
  unfold textsOf in *. cbn [omap list_omap] in *.
  destruct item as [contentMap|?].
  2:{ cbn. by apply IH. }
  destruct (contentMap !! "text") as [t|]; [|cbn; by apply IH].
  cbn [String.concat].
  destruct (omap _ content) as [|t' ts] eqn:Hts.
  - assert (resultText content = "") as ->.
    { clear -Hts. induction content as [|i content IH]; [done|].
      unfold resultText. cbn [foldl]. rewrite resultText_from.
      cbn [omap list_omap] in Hts.
      destruct i as [m|?]; [destruct (m !! "text"); [done|]|]; cbn; by apply IH. }
    cbn. by rewrite string_app_empty.
  - rewrite IH by done. cbn [String.append].
    rewrite !string_app_assoc. done.
Qed.

(** X5.  The text of a result block is the ["text"] fields of the raw
    items that are objects carrying one, in order, joined by single spaces
    and trimmed of surrounding white space; items without a text do not
    show. *)
Theorem result_text_is_joined_texts id content :
  Text (toolResultBlock id content)
  = TrimSpace (String.concat " " (textsOf content)).
Proof.
  cbn. destruct (decide (textsOf content = [])) as [He|Hne].
  - rewrite He. cbn. clear -He. f_equal.
    induction content as [|i content IH]; [done|].
    unfold resultText. cbn [foldl]. rewrite resultText_from.
    unfold textsOf in He. cbn [omap list_omap] in He.
    destruct i as [m|?]; [destruct (m !! "text"); [done|]|]; cbn; by apply IH.
  - by rewrite resultText_joined, TrimSpace_app_space.
Qed.

Section RegistryMore.

Variable startError : Procs -> string -> list string -> list string -> option string.
Variable initializeError : Procs -> StdioMCPClient -> InitializeRequest -> option string.
Variable env : gmap string string.

Local Abbreviation register := (registerServers startError initializeError env).
Local Abbreviation start := (NewStdioMCPClient startError).

Lemma registerServers_success servers clients P g P' g' clients' :
  NoDup servers.*1 →
  (∀ n, n ∈ servers.*1 → clients !! n = None) →
  wellRegistered clients P →
  register servers clients P g = (P', g', inr clients') →
  dom clients' = dom clients ∪ list_to_set servers.*1 ∧
  wellRegistered clients' P' ∧
  live P ⊆ live P'.
Proof.
  revert clients P g. induction servers as [|[name server] servers IH];
    intros clients P g Hnd Hfresh Hwell.
  { intros [= <- _ <-]. cbn. split; [set_solver|done]. }
  cbn [registerServers]. unfold NewStdioMCPClient, Initialize.
  destruct (startError _ _ _ _); [done|].
  destruct (initializeError _ _ _); [done|].
  cbn in Hnd. apply NoDup_cons in Hnd as [Hname Hnd].
  intros Hreg. apply IH in Hreg as (Hdom & Hwell' & Hlive); [| done | |].
  - split; [|split; [done|]].
    + rewrite Hdom, dom_insert_L. cbn. set_solver.
    + cbn in Hlive. set_solver.
  - intros n Hn. rewrite lookup_insert_ne by (intros ->; done).
    apply Hfresh. cbn. by right.
  - destruct Hwell as [Hopen Hinj]. split.
    + intros n c. cbn. destruct (decide (n = name)) as [->|Hne].
      * rewrite lookup_insert_eq. intros [= <-]. cbn. split; [set_solver|lia].
      * rewrite lookup_insert_ne by done. intros Hc.
        destruct (Hopen _ _ Hc). split; [set_solver|lia].
    + intros n1 n2 c1 c2.
      destruct (decide (n1 = name)) as [->|Hne1],
               (decide (n2 = name)) as [->|Hne2]; [done|..].
      * rewrite lookup_insert_eq, lookup_insert_ne by done.
        intros [= <-] Hc2 Hpid. cbn in Hpid.
        destruct (Hopen _ _ Hc2). lia.
      * rewrite lookup_insert_eq, lookup_insert_ne by done.
        intros Hc1 [= <-] Hpid. cbn in Hpid.
        destruct (Hopen _ _ Hc1). lia.
      * rewrite !lookup_insert_ne by done. apply Hinj.
Qed.

(** X6.  When [createMCPClients] returns a map (the server names being
    distinct), the map has exactly the configured names, every connection
    in it is open, no two names share a process, and nothing that was open
    before has been closed. *)
Theorem createMCPClients_registers_all config P g P' g' clients :
  NoDup (MCPServers config).*1 →
  createMCPClients startError initializeError env config P g
    = (P', g', inr clients) →
  dom clients = list_to_set (MCPServers config).*1 ∧
  size clients = length (MCPServers config) ∧
  (∀ n c, clients !! n = Some c → pid c ∈ live P') ∧
  (∀ n1 n2 c1 c2, clients !! n1 = Some c1 → clients !! n2 = Some c2 →
                  n1 ≠ n2 → pid c1 ≠ pid c2) ∧
  live P ⊆ live P'.
Proof.
  intros Hnd Hreg. unfold createMCPClients in Hreg.
  assert (wellRegistered ∅ P) as Hwell
    by (split; intros *; by rewrite lookup_empty).
  destruct (registerServers_success _ _ _ _ _ _ _ Hnd
              ltac:(intros; apply lookup_empty) Hwell Hreg)
    as (Hdom & [Hopen Hinj] & Hlive).
  rewrite dom_empty_L in Hdom.
  assert (dom clients = list_to_set (MCPServers config).*1) as Hdom' by set_solver.
  clear Hdom. rename Hdom' into Hdom.
  split; [done|]. split; [|split; [|split; [|done]]].
  - rewrite <- size_dom, Hdom, size_list_to_set, length_fmap by done. done.
  - intros n c Hc. by destruct (Hopen _ _ Hc).
  - intros n1 n2 c1 c2 H1 H2 Hne Hpid. apply Hne. eauto.
Qed.

(** X7.  The error of a failed registration names the server whose
    handshake failed and the stage ([create] when the process did not
    start, [initialize] otherwise) and carries the error of that stage;
    at most one process was started for the failing server and none for
    the servers behind it. *)
Theorem failed_handshake_names_server pre name server post P0 g0 P1 g1 clients1 e :
  register pre ∅ P0 g0 = (P1, g1, inr clients1) →
  handshakeError startError initializeError env server P1 = Some e →
  ∃ P' g' stage,
    createMCPClients startError initializeError env
      {| MCPServers := pre ++ (name, server) :: post |} P0 g0
      = (P', g', inl ("failed to " +:+ stage +:+ " MCP client for " +:+ name
                      +:+ ": " +:+ e)) ∧
    (stage = "create" ∧
       startError P1 (Command server) (launchEnv server) (Args server) = Some e ∨
     stage = "initialize" ∧
       startError P1 (Command server) (launchEnv server) (Args server) = None) ∧
    (nextPid P' ≤ S (nextPid P1))%nat.
Proof.
  intros Hpre Hfail. unfold createMCPClients. cbn [MCPServers].
  rewrite registerServers_app, Hpre. cbn [registerServers].
  unfold handshakeError, NewStdioMCPClient, Initialize in *.
  assert (∀ m P, nextPid (closeAll m P) = nextPid P) as Hnext.
  { intros m P. unfold closeAll. by induction (map_to_list m). }
  destruct (startError P1 _ _ _) as [err|] eqn:Hstart.
  - injection Hfail as ->. exists (closeAll clients1 P1), g1, "create".
    split; [done|]. split; [by left|]. rewrite Hnext. lia.
  - cbn [snd] in Hfail. rewrite Hfail.
    eexists _, _, "initialize". split; [done|]. split; [by right|].
    rewrite Hnext. cbn. lia.
Qed.

(** When registration fails, nothing it started stays open. *)
Lemma registerServers_failure servers clients P g P' g' err :
  NoDup servers.*1 →
  (∀ n, n ∈ servers.*1 → clients !! n = None) →
  register servers clients P g = (P', g', inl err) →
  live P' ⊆ live P ∖ pidsOf clients.
Proof.
  revert clients P g. induction servers as [|[name server] servers IH];
    intros clients P g Hnd Hfresh; [done|].
  cbn [registerServers]. unfold NewStdioMCPClient, Initialize.
  cbn in Hnd. apply NoDup_cons in Hnd as [Hname Hnd].
  destruct (startError _ _ _ _).
  { intros [= <- _ _]. by rewrite (closeAll_live startError initializeError). }
  destruct (initializeError _ _ _).
  { intros [= <- _ _]. rewrite (closeAll_live startError initializeError).
    cbn [Close live pid]. set_solver. }
  intros Hreg. apply IH in Hreg; [|done|].
  - rewrite pidsOf_insert in Hreg by (apply Hfresh; cbn; left).
    cbn in Hreg. set_solver.
  - intros n Hn. rewrite lookup_insert_ne by (intros ->; done).
    apply Hfresh. cbn. by right.
Qed.

(** The log does not influence registration. *)
Lemma registerServers_log_irrelevant servers clients P g g' :
  (register servers clients P g).1.1 = (register servers clients P g').1.1 ∧
  (register servers clients P g).2 = (register servers clients P g').2.
Proof.
  revert clients P g g'. induction servers as [|[name server] servers IH];
    intros clients P g g'; [done|].
  cbn [registerServers].
  destruct (NewStdioMCPClient _ _ _ _ _) as [P1 [e|client]]; [done|].
  destruct (Initialize _ _ _ _) as [P2 [e|]]; [done|]. apply IH.
Qed.

Lemma registerServers_unlogged servers clients P g P' g' res :
  register servers clients P g = (P', g', res) → unlogged g' = unlogged g.
Proof.
  revert clients P g. induction servers as [|[name server] servers IH];
    intros clients P g; [by intros [= _ <- _]|].
  cbn [registerServers].
  destruct (NewStdioMCPClient _ _ _ _ _) as [P1 [e1|client]];
    [by intros [= _ <- _]|].
  destruct (Initialize _ _ _ _) as [P2 [e2|]]; [by intros [= _ <- _]|].
  intros Hr. by rewrite (IH _ _ _ Hr).
Qed.

End RegistryMore.

Section CatalogMore.

Variable listTools : StdioMCPClient -> string + list Tool.

Lemma loadTools_frame connected g :
  modelProvider (loadTools listTools connected g) = modelProvider g ∧
  modelMcpClients (loadTools listTools connected g) = modelMcpClients g ∧
  modelMessages (loadTools listTools connected g) = modelMessages g.
Proof.
  revert g. induction connected as [|[serverName client] connected IH];
    intros g; [done|].
  cbn [loadTools].
  destruct (listTools client); destruct (IH (log Error "Error fetching tools" g)) as (?&?&?);
    [done|]. by destruct (IH (log Info "Tools loaded"
                     (setTools (modelTools g ++ mcpToolsToAnthropicTools serverName l) g))) as (?&?&?).
Qed.

(** X8.  A server whose tool listing fails leaves the catalog as if it
    were not connected: the tools of the servers before and behind it are
    loaded all the same. *)
Theorem failed_listing_is_isolated pre serverName client post g err :
  listTools client = inl err →
  modelTools (loadTools listTools (pre ++ (serverName, client) :: post) g)
  = modelTools (loadTools listTools (pre ++ post) g).
Proof.
  intros Hl. rewrite !loadTools_catalog. f_equal.
  unfold catalogOf. rewrite !flat_map_app. cbn. by rewrite Hl.
Qed.

End CatalogMore.

(** X9.  With a negative window (which [LoadServerEnv] accepts) the history
    handler panics on the slice expression, whatever the history holds. *)
Theorem negative_window_panics g :
  - 2 ^ 63 <= messageWindow g < 0 →
  Z.of_nat (length (modelMessages g)) < 2 ^ 63 →
  (historyHandler g).2 = None.
Proof.
  intros Hw Hlen. unfold historyHandler. cbn.
  rewrite (proj2 (Z.gtb_lt _ _)) by lia. cbn. unfold sliceFrom, wrapInt.
  set (len := Z.of_nat (length (modelMessages g))) in *.
  destruct (Z.lt_ge_cases (len - messageWindow g) (2 ^ 63)).
  - rewrite Z.mod_small by lia.
    rewrite (proj2 (Z.ltb_ge _ _)), (proj2 (Z.ltb_lt _ _)) by lia. done.
  - replace (len - messageWindow g + 2 ^ 63)
      with (len - messageWindow g - 2 ^ 63 + 1 * 2 ^ 64) by lia.
    rewrite Z.mod_add, Z.mod_small by lia.
    rewrite (proj2 (Z.ltb_lt _ _)) by lia. done.
Qed.

Lemma cutAt_absent sep s : Contains s sep = false → cutAt sep s = None.
Proof.
  induction s as [|c s IH]; cbn [Contains cutAt];
    intros [Hp Hc]%orb_false_iff; rewrite Hp; [done|]. by rewrite IH.
Qed.

Lemma HasPrefix_colon c s : HasPrefix (String c s) ":" = Ascii.eqb c ":".
Proof. cbn. by rewrite HasPrefix_empty, andb_true_r. Qed.

Lemma cutAt_first_colon p m :
  Contains p ":" = false → cutAt ":" (p +:+ ":" +:+ m) = Some (p, m).
Proof.
  induction p as [|c p IH].
  { intros _. change ("" +:+ ":" +:+ m) with (String ":" m).
    cbn [cutAt]. by rewrite HasPrefix_colon. }
  cbn [Contains]. intros [Hp Hc]%orb_false_iff.
  change (String c p +:+ ":" +:+ m) with (String c (p +:+ ":" +:+ m)).
  cbn [cutAt]. rewrite HasPrefix_colon in *. by rewrite Hp, IH.
Qed.

Lemma SplitN_no_colon s : Contains s ":" = false → SplitN s ":" 2 = [s].
Proof.
  intros H. change (SplitN s ":" 2) with (splitPieces ":" s 1).
  cbn [splitPieces]. by rewrite cutAt_absent.
Qed.

Lemma SplitN_first_colon p m :
  Contains p ":" = false → SplitN (p +:+ ":" +:+ m) ":" 2 = [p; m].
Proof.
  intros H.
  change (SplitN (p +:+ ":" +:+ m) ":" 2)
    with (splitPieces ":" (p +:+ ":" +:+ m) 1).
  cbn [splitPieces]. by rewrite cutAt_first_colon.
Qed.

Section StartupFacts.

Variable anthropicNewProvider : string -> string -> string -> Provider.
Variable ollamaNewProvider : string -> option Provider * option string.
Variable openaiNewProvider : string -> string -> string -> Provider.
Variable UserHomeDir : string + string.
Variable filepathJoin : string -> string -> string.
Variable renderConfig : MCPConfig -> string + string.
Variable parseConfig : string -> string + MCPConfig.
Variable startError : Procs -> string -> list string -> list string -> option string.
Variable initializeError : Procs -> StdioMCPClient -> InitializeRequest -> option string.
Variable listTools : StdioMCPClient -> string + list Tool.
Variable rangeClients :
  gmap string StdioMCPClient -> list (string * StdioMCPClient).

(** [range] visits every entry of the map once, in some order. *)
Hypothesis rangeClients_all : ∀ m, rangeClients m ≡ₚ map_to_list m.

Local Abbreviation provide :=
  (createProvider anthropicNewProvider ollamaNewProvider openaiNewProvider).
Local Abbreviation load :=
  (loadMCPConfig UserHomeDir filepathJoin renderConfig parseConfig).
Local Abbreviation host :=
  (runMCPHost anthropicNewProvider ollamaNewProvider openaiNewProvider
              UserHomeDir filepathJoin renderConfig parseConfig
              startError initializeError listTools rangeClients).
Local Abbreviation boot :=
  (Start anthropicNewProvider ollamaNewProvider openaiNewProvider
         UserHomeDir filepathJoin renderConfig parseConfig
         startError initializeError listTools rangeClients).

(** X10.  A model string without a colon is rejected with the error that
    quotes it; no provider is made. *)
Theorem createProvider_needs_colon env g modelString :
  Contains modelString ":" = false →
  provide env g modelString
  = (None, Some ("invalid model format. Expected provider:model, got "
                 +:+ modelString)).
Proof. intros H. unfold createProvider. by rewrite SplitN_no_colon. Qed.

(** X11.  The provider is selected by the text before the first colon and
    the model name is everything behind it, further colons included:
    [ollama] hands the model to its constructor; [anthropic] and [openai]
    are built with the key held in the package variable when there is
    one, and fail when neither the variable nor the environment has a key;
    any other name is an unsupported provider. *)
Theorem createProvider_splits_at_first_colon env g provider model :
  Contains provider ":" = false →
  let r := provide env g (provider +:+ ":" +:+ model) in
  (provider = "ollama" → r = ollamaNewProvider model) ∧
  (provider = "anthropic" → anthropicAPIKey g ≠ "" →
   r = (Some (anthropicNewProvider (anthropicAPIKey g) (anthropicBaseURL g)
                                   model), None)) ∧
  (provider = "openai" → openaiAPIKey g ≠ "" →
   r = (Some (openaiNewProvider (openaiAPIKey g) (openaiBaseURL g) model),
        None)) ∧
  (provider = "anthropic" → anthropicAPIKey g = "" →
   Getenv env "ANTHROPIC_API_KEY" = "" → r.1 = None ∧ is_Some r.2) ∧
  (provider = "openai" → openaiAPIKey g = "" →
   Getenv env "OPENAI_API_KEY" = "" → r.1 = None ∧ is_Some r.2) ∧
  (provider ≠ "anthropic" → provider ≠ "ollama" → provider ≠ "openai" →
   r = (None, Some ("unsupported provider: " +:+ provider))).
Proof.
  intros H. cbn zeta. unfold createProvider. rewrite SplitN_first_colon by done.
  split; [by intros ->|].
  split; [intros -> Hk; cbn; by repeat (case_decide; try done)|].
  split; [intros -> Hk; cbn; by repeat (case_decide; try done)|].
  split; [intros -> Hk He; rewrite Hk, He; cbn; eauto|].
  split; [intros -> Hk He; rewrite Hk, He; cbn; eauto|].
  intros ???. by repeat (case_decide; try done).
Qed.

Lemma loadMCPConfig_vars fs g g' :
  configFile g = configFile g' → load fs g = load fs g'.
Proof. intros H. unfold loadMCPConfig. by rewrite H. Qed.

Lemma notExist_true fs path :
  notExist fs path = true →
  files fs !! path = None ∧ statFaults fs !! path = None.
Proof.
  unfold notExist. destruct (statFaults fs !! path); [done|].
  intros H. by apply bool_decide_eq_true in H.
Qed.

(** X12.  [loadMCPConfig] never changes a file that exists: at most it
    creates one file, at a path where there was none and where looking
    for it did not fail otherwise, whether or not it then reports an
    error; what fails on which path is as before; and it returns a
    configuration exactly when it returns no error. *)
Theorem loadMCPConfig_keeps_files fs g :
  let r := loadMCPConfig UserHomeDir filepathJoin renderConfig parseConfig
                         fs g in
  (statFaults r.1 = statFaults fs ∧ readFaults r.1 = readFaults fs ∧
   writeFaults r.1 = writeFaults fs) ∧
  (∀ path data, files fs !! path = Some data → files r.1 !! path = Some data) ∧
  (files r.1 = files fs ∨
   ∃ path data, files fs !! path = None ∧ statFaults fs !! path = None ∧
                files r.1 = <[path := data]> (files fs)) ∧
  (is_Some r.2.1 ↔ r.2.2 = None).
Proof.
  cbn zeta. unfold loadMCPConfig.
  destruct (if decide (configFile g = "") then _ else _) as [err|configPath].
  { cbn. split; [done|]. split; [done|]. split; [by left|].
    split; [by intros [? ?]|done]. }
  destruct (notExist fs configPath) eqn:Hex.
  - apply notExist_true in Hex as [Hnew Hstat].
    destruct (renderConfig _) as [err|configData].
    { cbn. split; [done|]. split; [done|]. split; [by left|].
      split; [by intros [? ?]|done]. }
    assert (∀ written path data,
              files fs !! path = Some data →
              <[configPath := written]> (files fs) !! path = Some data) as Hkeep.
    { intros written path data Hp. rewrite lookup_insert_ne; [done|].
      intros ->. congruence. }
    unfold WriteFile.
    destruct (writeFaults fs !! configPath) as [[err|err written]|]; cbn.
    + split; [done|]. split; [done|]. split; [by left|].
      split; [by intros [? ?]|done].
    + split; [done|]. split; [apply Hkeep|]. split; [right; eauto|].
      split; [by intros [? ?]|done].
    + split; [done|]. split; [apply Hkeep|]. split; [right; eauto|].
      by split; eauto.
  - destruct (ReadFile fs configPath) as [err|configData]; cbn.
    { split; [done|]. split; [done|]. split; [by left|].
      split; [by intros [? ?]|done]. }
    destruct (parseConfig configData) as [err|config]; cbn.
    { split; [done|]. split; [done|]. split; [by left|].
      split; [by intros [? ?]|done]. }
    split; [done|]. split; [done|]. split; [by left|]. by split; eauto.
Qed.

(** X13.  When the configuration file does not exist and nothing fails on
    its path, [loadMCPConfig] writes the default document there and
    returns the empty configuration; the next call finds the file and
    returns what the document parses to, leaving the files alone. *)
Theorem default_config_is_written_once fs g path data :
  (configFile g = path ∧ path ≠ "") ∨
  (configFile g = "" ∧
   ∃ home, UserHomeDir = inr home ∧ path = filepathJoin home ".mcp.json") →
  files fs !! path = None →
  statFaults fs !! path = None → readFaults fs !! path = None →
  writeFaults fs !! path = None →
  renderConfig {| MCPServers := [] |} = inr data →
  let fs' := withFile path data fs in
  load fs g = (fs', (Some {| MCPServers := [] |}, None)) ∧
  load fs' g =
    (fs', match parseConfig data with
          | inl err => (None, Some ("error parsing config file: " +:+ err))
          | inr config => (Some config, None)
          end).
Proof.
  intros Hpath Hnew Hstat Hread Hwrite Hrender fs'. unfold loadMCPConfig.
  assert ((if decide (configFile g = "") then
             match UserHomeDir with
             | inl err => inl ("error getting home directory: " +:+ err)
             | inr homeDir => inr (filepathJoin homeDir ".mcp.json")
             end
           else inr (configFile g)) = inr path) as ->.
  { destruct Hpath as [[<- Hne]|[-> (home & -> & ->)]]; by case_decide. }
  unfold notExist, WriteFile, ReadFile. split.
  - rewrite Hstat, bool_decide_eq_true_2 by done. by rewrite Hrender, Hwrite.
  - cbn [fs' withFile statFaults readFaults files]. rewrite Hstat, Hread.
    rewrite bool_decide_eq_false_2 by (by rewrite lookup_insert_eq).
    rewrite lookup_insert_eq. by destruct (parseConfig data).
Qed.

Lemma rangeClients_empty : rangeClients ∅ = [].
Proof.
  apply Permutation_nil. rewrite rangeClients_all. by rewrite map_to_list_empty.
Qed.

Lemma connected_log_unlogged g (l : list (string * StdioMCPClient)) :
  unlogged (foldr (fun _ g => log Info "Server connected" g) g l) = unlogged g.
Proof. induction l as [|? l IH]; [done|]. cbn. by rewrite <- IH. Qed.

(** X14.  When the provider is made but the configuration cannot be
    loaded, [runMCPHost] logs the error and goes on to register the
    servers of a nil configuration: it panics, no process having been
    started and the files being as [loadMCPConfig] left them, and [Start]
    never serves. *)
Theorem runMCPHost_panics_without_config srv h p err :
  provide (environ h) (vars h) (modelFlag (vars h)) = (Some p, None) →
  (load (fsys h) (vars h)).2 = (None, Some err) →
  ∃ h', runMCPHost anthropicNewProvider ollamaNewProvider openaiNewProvider
                   UserHomeDir filepathJoin renderConfig parseConfig
                   startError initializeError listTools rangeClients h
        = (h', NilDereference) ∧
        procs h' = procs h ∧
        fsys h' = (load (fsys h) (vars h)).1 ∧
        boot srv h = None.
Proof.
  intros Hp Hl. unfold Start, runMCPHost. rewrite Hp.
  rewrite (loadMCPConfig_vars (fsys h) _ (vars h)) by done.
  destruct (load (fsys h) (vars h)) as [fs [config e]]. cbn in Hl.
  injection Hl as -> ->. by eexists.
Qed.

(** X15.  When the registration of the tool servers fails, [runMCPHost]
    logs the error and returns without one: the host goes on with its
    provider, no registered server, the catalog it had, and no connection
    open that was not open before. *)
Theorem runMCPHost_survives_failed_registration h p fs config e :
  provide (environ h) (vars h) (modelFlag (vars h)) = (Some p, None) →
  load (fsys h) (vars h) = (fs, (Some config, None)) →
  NoDup (MCPServers config).*1 →
  (createMCPClients startError initializeError (environ h) config
                    (procs h) (vars h)).2 = inl e →
  ∃ h', host h = (h', HostReturned None) ∧
        modelProvider (vars h') = Some p ∧
        modelMcpClients (vars h') = ∅ ∧
        modelTools (vars h') = modelTools (vars h) ∧
        live (procs h') ⊆ live (procs h).
Proof.
  intros Hp Hl Hnd Hreg. unfold runMCPHost. rewrite Hp.
  rewrite (loadMCPConfig_vars (fsys h) _ (vars h)), Hl by done.
  unfold createMCPClients in *.
  set (g1 := log Info "Model loaded" (setProvider (Some p) (vars h))).
  destruct (registerServers_log_irrelevant startError initializeError
              (environ h) (MCPServers config) ∅ (procs h) g1 (vars h))
    as [HP Hres].
  rewrite Hreg in Hres.
  destruct (registerServers startError initializeError (environ h)
              (MCPServers config) ∅ (procs h) g1) as [[P' g'] res] eqn:Hrun.
  cbn [fst snd] in HP, Hres. subst res.
  pose proof (registerServers_failure _ _ _ _ _ _ _ _ _ _ Hnd
                ltac:(intros; apply lookup_empty) Hrun) as Hlive.
  rewrite map_to_list_empty, rangeClients_empty. cbn [foldr loadTools].
  eexists. split; [done|]. cbn.
  pose proof (registerServers_unlogged _ _ _ _ _ _ _ _ _ _ Hrun) as Hg.
  split; [exact (f_equal modelProvider Hg)|]. split; [done|].
  split; [exact (f_equal modelTools Hg)|]. set_solver.
Qed.

(** X16.  When provider, configuration and registration succeed,
    [runMCPHost] returns without error with a connection registered and
    open for every configured name, and the catalog extended by the
    namespaced tools of the servers whose listing succeeds, in the order
    the map is ranged over. *)
Theorem runMCPHost_builds_catalog h p fs config clients :
  provide (environ h) (vars h) (modelFlag (vars h)) = (Some p, None) →
  load (fsys h) (vars h) = (fs, (Some config, None)) →
  NoDup (MCPServers config).*1 →
  (createMCPClients startError initializeError (environ h) config
                    (procs h) (vars h)).2 = inr clients →
  ∃ h', host h = (h', HostReturned None) ∧
        fsys h' = fs ∧
        modelProvider (vars h') = Some p ∧
        modelMcpClients (vars h') = clients ∧
        dom clients = list_to_set (MCPServers config).*1 ∧
        (∀ n c, clients !! n = Some c → pid c ∈ live (procs h')) ∧
        modelTools (vars h')
          = modelTools (vars h) ++ catalogOf listTools (rangeClients clients).
Proof.
  intros Hp Hl Hnd Hreg. unfold runMCPHost. rewrite Hp.
  rewrite (loadMCPConfig_vars (fsys h) _ (vars h)), Hl by done.
  unfold createMCPClients in *.
  set (g1 := log Info "Model loaded" (setProvider (Some p) (vars h))).
  destruct (registerServers_log_irrelevant startError initializeError
              (environ h) (MCPServers config) ∅ (procs h) g1 (vars h))
    as [HP Hres].
  rewrite Hreg in Hres.
  destruct (registerServers startError initializeError (environ h)
              (MCPServers config) ∅ (procs h) g1) as [[P' g'] res] eqn:Hrun.
  cbn [fst snd] in HP, Hres. subst res.
  assert (wellRegistered ∅ (procs h)) as Hwell
    by (split; intros *; by rewrite lookup_empty).
  destruct (registerServers_success _ _ _ _ _ _ _ _ _ _ Hnd
              ltac:(intros; apply lookup_empty) Hwell Hrun)
    as (Hdom & [Hopen _] & _).
  pose proof (registerServers_unlogged _ _ _ _ _ _ _ _ _ _ Hrun) as Hg.
  eexists. split; [done|]. cbn [fsys vars procs].
  rewrite loadTools_catalog.
  set (g2 := foldr _ _ _).
  assert (unlogged g2 = unlogged (setClients clients g1)) as Hg2.
  { unfold g2. rewrite connected_log_unlogged.
    change (unlogged (log Info "MCP clients created" (setClients clients g')))
      with (unlogged (setClients clients g')).
    change (unlogged (setClients clients g'))
      with (setClients clients (unlogged g')).
    by rewrite Hg. }
  destruct (loadTools_frame listTools (rangeClients clients) g2) as (Hf1 & Hf2 & _).
  rewrite Hf1, Hf2.
  split; [done|]. split; [exact (f_equal modelProvider Hg2)|].
  split; [exact (f_equal modelMcpClients Hg2)|].
  split; [set_solver|]. split; [intros n c Hc; by destruct (Hopen _ _ Hc)|].
  pose proof (f_equal modelTools Hg2) as Ht.
  change (modelTools g2 = modelTools (vars h)) in Ht. by rewrite Ht.
Qed.

End StartupFacts.

Section EndToEnd.

Context {W ToolArgs : Type}.
Variable jsonMarshal : ToolArgs -> string.
Variable jsonUnmarshal : string -> string + ToolArgs.
Variable CreateMessage :
  W -> Provider -> string -> list HistoryMessage -> list Tool ->
  W * (string + @Message ToolArgs).
Variable CallTool :
  W -> StdioMCPClient -> string -> ToolArgs -> W * (string + CallToolResult).
Variable anthropicNewProvider : string -> string -> string -> Provider.
Variable ollamaNewProvider : string -> option Provider * option string.
Variable openaiNewProvider : string -> string -> string -> Provider.
Variable UserHomeDir : string + string.
Variable filepathJoin : string -> string -> string.
Variable renderConfig : MCPConfig -> string + string.
Variable parseConfig : string -> string + MCPConfig.
Variable startError : Procs -> string -> list string -> list string -> option string.
Variable initializeError : Procs -> StdioMCPClient -> InitializeRequest -> option string.
Variable listTools : StdioMCPClient -> string + list Tool.
Variable rangeClients :
  gmap string StdioMCPClient -> list (string * StdioMCPClient).

Local Abbreviation step := (toolCallStep jsonMarshal jsonUnmarshal CallTool).
Local Abbreviation handle := (promptHandler jsonMarshal jsonUnmarshal CreateMessage CallTool).
Local Abbreviation entry :=
  (main anthropicNewProvider ollamaNewProvider openaiNewProvider
        UserHomeDir filepathJoin renderConfig parseConfig
        startError initializeError listTools rangeClients).

(** X17.  When [MCP_MODEL] holds no colon (or is not set), [main] still
    starts the server: no file is touched and no process started, the
    provider stays nil, and every non-empty prompt is answered with
    [model provider not initialized] without a query or an invocation. *)
Theorem main_without_model_serves_errors dotenv h :
  Contains (Getenv (godotenvLoad dotenv (environ h)).1 "MCP_MODEL") ":" = false →
  ∃ h',
    entry dotenv h = Some h' ∧
    fsys h' = fsys h ∧ procs h' = procs h ∧
    modelProvider (vars h') = None ∧
    ∀ fuel prompt w,
      prompt ≠ "" →
      ∃ s, handle (S fuel) prompt w (vars h')
           = (s, Some (inl "Error executing prompt: model provider not initialized")) ∧
           world s = w ∧ trace s = [].
Proof.
  intros Hm. unfold main, LoadServerEnv.
  destruct (godotenvLoad dotenv (environ h)) as [env err]. cbn [fst] in Hm.
  unfold NewServer.
  destruct (Atoi (Getenv env "MCP_SERVER_PORT")) as [port [e|]].
  all: unfold Start, runMCPHost, createProvider; cbn [environ vars modelFlag log].
  all: rewrite SplitN_no_colon by done.
  all: eexists; split; [done|]; cbn.
  all: split; [done|]; split; [done|]; split; [done|].
  all: intros fuel prompt w Hne.
  all: edestruct (promptHandler_uninitialised jsonMarshal jsonUnmarshal
                    CreateMessage CallTool fuel prompt w)
         as (s & Hs & Hw & Ht & _); [done| |eauto]; done.
Qed.

(** X18.  A catalog entry made for a tool of a server, when a tool call
    uses its name, is invoked on the connection registered under that
    server with the tool's own name, provided the server id contains no
    separator and does not end in an underscore and the tool names
    contain no separator; description and schema are the tool's. *)
Theorem catalog_name_routes_back (message : Message) l toolCall
    serverName tools x c a :
  x ∈ mcpToolsToAnthropicTools serverName tools →
  Contains (serverName +:+ "_") "__" = false →
  Forall (fun t => Contains (ToolName t) "__" = false) tools →
  GetName toolCall = ToolName x →
  modelMcpClients (globals (session l)) !! serverName = Some c →
  jsonUnmarshal (jsonMarshal (GetArguments toolCall)) = inr a →
  ∃ t, t ∈ tools ∧
       Description x = Description t ∧ InputSchema x = InputSchema t ∧
       trace (session (step message l toolCall))
         = trace (session l) ++ [Invoke serverName c (ToolName t) a].
Proof.
  intros Hx Hs Ht Hname Hc Ha.
  unfold mcpToolsToAnthropicTools in Hx.
  apply list_elem_of_fmap in Hx as (t & -> & Hin).
  exists t. split; [done|]. split; [done|].
  split; [by destruct t as [? ? []]|].
  rewrite Forall_forall in Ht. cbn in Hname.
  pose proof (Split_namespaced serverName (ToolName t) Hs (Ht _ Hin)) as Hsplit.
  rewrite <- Hname in Hsplit.
  destruct (toolCallStep_outcome jsonMarshal jsonUnmarshal CallTool
              message l toolCall) as (_ & _ & _ & Htr & _).
  rewrite (Invoked_outcome jsonMarshal jsonUnmarshal CallTool
             _ _ _ _ _ _ _ Hsplit Hc Ha) in Htr.
  exact Htr.
Qed.

End EndToEnd.

Module MoreExamples.
Import Scenario Deployment.

Lemma promptHandler_returns_session_witness :
  let r := promptHandler marshal unmarshal (backend [inr (turn "done" [])])
                         fsTools 1 "hi" O ready in
  let turns := [Turn "user" [textBlock "hi"];
                Turn "assistant" [textBlock "done"]] in
  r = (r.1, Some (inr turns)) ∧
  ∃ rest, turns = Turn "user" [textBlock "hi"] :: rest ∧ rest ≠ [] ∧
          modelMessages (globals r.1) = modelMessages ready ++ turns.
Proof.
  intros r turns.
  assert (r = (r.1, Some (inr turns))) as Hr by reflexivity.
  split; [exact Hr|].
  exact (promptHandler_returns_session marshal unmarshal
           (backend [inr (turn "done" [])]) fsTools 1 "hi" O ready r.1 turns Hr).
Defined.


Lemma createMCPClients_registers_all_witness :
  let config := {| MCPServers := [("a", server "ok"); ("c", server "ok")] |} in
  let r := createMCPClients startError initializeError ∅ config noProcs ready in
  let clients := <[ "c" := {| pid := 1; command := "ok" |} ]>
                   {[ "a" := {| pid := 0; command := "ok" |} ]} in
  NoDup (MCPServers config).*1 ∧
  r = (r.1.1, r.1.2, inr clients) ∧
  size clients = 2%nat ∧
  ∀ n c, clients !! n = Some c → pid c ∈ live r.1.1.
Proof.
  intros config r clients.
  assert (NoDup (MCPServers config).*1) as Hnd
    by (apply (bool_decide_unpack _); by vm_compute).
  assert (r = (r.1.1, r.1.2, inr clients)) as Hr by (by vm_compute).
  split; [exact Hnd|]. split; [exact Hr|].
  destruct (createMCPClients_registers_all startError initializeError ∅
              config noProcs ready r.1.1 r.1.2 clients Hnd Hr)
    as (_ & Hsize & Hlive & _).
  split; [exact Hsize|exact Hlive].
Defined.

Lemma failed_handshake_names_server_witness :
  let a := {| pid := 0; command := "ok" |} in
  let P1 := {| nextPid := 1; live := {[ 0%nat ]} |} in
  registerServers startError initializeError ∅ [("a", server "ok")] ∅
                  noProcs ready
    = (P1, log Info "Initializing server..." ready, inr {[ "a" := a ]}) ∧
  handshakeError startError initializeError ∅ (server "mute") P1
    = Some "context deadline exceeded" ∧
  ∃ P' g' stage,
    createMCPClients startError initializeError ∅
                     {| MCPServers := threeServers |} noProcs ready
      = (P', g', inl ("failed to " +:+ stage +:+ " MCP client for " +:+ "b"
                      +:+ ": " +:+ "context deadline exceeded")) ∧
    (nextPid P' ≤ 2)%nat.
Proof.
  intros a P1. split; [reflexivity|]. split; [reflexivity|].
  destruct (failed_handshake_names_server startError initializeError ∅
              [("a", server "ok")] "b" (server "mute") [("c", server "ok")]
              noProcs ready P1 (log Info "Initializing server..." ready)
              {[ "a" := a ]} "context deadline exceeded" eq_refl eq_refl)
    as (P' & g' & stage & Hr & _ & Hn).
  exists P', g', stage. split; [exact Hr|exact Hn].
Defined.

Lemma failed_listing_is_isolated_witness :
  let c0 := {| pid := 0; command := "one" |} in
  let c1 := {| pid := 1; command := "two" |} in
  let c2 := {| pid := 2; command := "three" |} in
  flakyListTools c1 = inl "context deadline exceeded" ∧
  modelTools (loadTools flakyListTools [("a", c0); ("b", c1); ("c", c2)] ready)
  = modelTools (loadTools flakyListTools [("a", c0); ("c", c2)] ready).
Proof.
  intros c0 c1 c2. split; [reflexivity|].
  exact (failed_listing_is_isolated flakyListTools [("a", c0)] "b" c1
           [("c", c2)] ready "context deadline exceeded" eq_refl).
Defined.

Lemma negative_window_panics_witness :
  - 2 ^ 63 <= messageWindow negativeWindow < 0 ∧
  Z.of_nat (length (modelMessages negativeWindow)) < 2 ^ 63 ∧
  (historyHandler negativeWindow).2 = None.
Proof.
  assert (- 2 ^ 63 <= messageWindow negativeWindow < 0) as Hw by (by vm_compute).
  assert (Z.of_nat (length (modelMessages negativeWindow)) < 2 ^ 63) as Hlen
    by (by vm_compute).
  split; [exact Hw|]. split; [exact Hlen|].
  exact (negative_window_panics negativeWindow Hw Hlen).
Defined.

Lemma createProvider_needs_colon_witness :
  Contains "llama3" ":" = false ∧
  provide ∅ ready "llama3"
  = (None, Some ("invalid model format. Expected provider:model, got "
                 +:+ "llama3")).
Proof.
  split; [reflexivity|].
  exact (createProvider_needs_colon anthropicNew ollamaNew openaiNew
           ∅ ready "llama3" eq_refl).
Defined.

Lemma createProvider_splits_at_first_colon_witness :
  Contains "ollama" ":" = false ∧
  provide ∅ ready ("ollama" +:+ ":" +:+ "llama3:8b") = ollamaNew "llama3:8b".
Proof.
  split; [reflexivity|].
  exact (proj1 (createProvider_splits_at_first_colon anthropicNew ollamaNew
                  openaiNew ∅ ready "ollama" "llama3:8b" eq_refl) eq_refl).
Defined.

Lemma loadMCPConfig_keeps_files_witness :
  let fs := {| files := {[ "/etc/other" := "kept" ]}; statFaults := ∅;
               readFaults := ∅;
               writeFaults :=
                 {[ "/etc/mcp.json" :=
                      WriteFails "no space left on device" "{mcp" ]} |} in
  let g := vars (hostWith "ollama:llama3" "") in
  (load fs g).2
    = (None, Some "error writing default config file: no space left on device") ∧
  files (load fs g).1 !! "/etc/mcp.json" = Some "{mcp" ∧
  files (load fs g).1 !! "/etc/other" = Some "kept".
Proof.
  intros fs g. split; [reflexivity|]. split; [reflexivity|].
  destruct (loadMCPConfig_keeps_files home join render parse fs g)
    as (_ & Hkeep & _).
  exact (Hkeep "/etc/other" "kept" eq_refl).
Defined.

Lemma default_config_is_written_once_witness :
  let fs := {| files := ∅; statFaults := ∅; readFaults := ∅;
               writeFaults := ∅ |} in
  let g := vars (hostWith "ollama:llama3" "") in
  let fs' := {| files := {[ "/etc/mcp.json" := "{mcpServers: {}}" ]};
                statFaults := ∅; readFaults := ∅; writeFaults := ∅ |} in
  configFile g = "/etc/mcp.json" ∧ "/etc/mcp.json" ≠ "" ∧
  files fs !! "/etc/mcp.json" = None ∧
  statFaults fs !! "/etc/mcp.json" = None ∧
  readFaults fs !! "/etc/mcp.json" = None ∧
  writeFaults fs !! "/etc/mcp.json" = None ∧
  render {| MCPServers := [] |} = inr "{mcpServers: {}}" ∧
  load fs g = (fs', (Some {| MCPServers := [] |}, None)) ∧
  load fs' g = (fs', (Some {| MCPServers := [] |}, None)).
Proof.
  intros fs g fs'.
  assert ("/etc/mcp.json" ≠ "") as Hne by discriminate.
  split; [reflexivity|]. split; [exact Hne|]. split; [reflexivity|].
  split; [reflexivity|]. split; [reflexivity|]. split; [reflexivity|].
  split; [reflexivity|].
  exact (default_config_is_written_once home join render parse fs g
           "/etc/mcp.json" "{mcpServers: {}}"
           (or_introl (conj eq_refl Hne)) eq_refl eq_refl eq_refl eq_refl
           eq_refl).
Defined.

Lemma runMCPHost_panics_without_config_witness :
  let h := hostWith "ollama:llama3" "junk" in
  provide (environ h) (vars h) (modelFlag (vars h))
    = (Some {| providerName := "ollama"; providerModel := "llama3" |}, None) ∧
  (load (fsys h) (vars h)).2
    = (None, Some "error parsing config file: invalid character") ∧
  ∃ h', host h = (h', NilDereference) ∧ procs h' = procs h.
Proof.
  intros h. split; [reflexivity|]. split; [reflexivity|].
  destruct (runMCPHost_panics_without_config anthropicNew ollamaNew openaiNew
              home join render parse startError initializeError listTools
              range {| port := 8115 |} h
              {| providerName := "ollama"; providerModel := "llama3" |}
              "error parsing config file: invalid character"
              eq_refl eq_refl) as (h' & Hr & Hp & _).
  exists h'. split; [exact Hr|exact Hp].
Defined.

Lemma range_all (m : gmap string StdioMCPClient) : range m ≡ₚ map_to_list m.
Proof. reflexivity. Defined.

Lemma runMCPHost_survives_failed_registration_witness :
  let h := hostWith "ollama:llama3" "three" in
  let p := {| providerName := "ollama"; providerModel := "llama3" |} in
  provide (environ h) (vars h) (modelFlag (vars h)) = (Some p, None) ∧
  load (fsys h) (vars h) = (fsys h, (Some {| MCPServers := threeServers |}, None)) ∧
  NoDup threeServers.*1 ∧
  (createMCPClients startError initializeError (environ h)
                    {| MCPServers := threeServers |} (procs h) (vars h)).2
    = inl "failed to initialize MCP client for b: context deadline exceeded" ∧
  ∃ h', host h = (h', HostReturned None) ∧
        modelMcpClients (vars h') = ∅ ∧ live (procs h') ⊆ live (procs h).
Proof.
  intros h p.
  assert (NoDup threeServers.*1) as Hnd
    by (apply (bool_decide_unpack _); by vm_compute).
  split; [reflexivity|]. split; [reflexivity|]. split; [exact Hnd|].
  split; [reflexivity|].
  destruct (runMCPHost_survives_failed_registration anthropicNew ollamaNew
              openaiNew home join render parse startError initializeError
              listTools range range_all h p (fsys h)
              {| MCPServers := threeServers |}
              "failed to initialize MCP client for b: context deadline exceeded"
              eq_refl eq_refl Hnd eq_refl)
    as (h' & Hr & _ & Hc & _ & Hl).
  exists h'. split; [exact Hr|]. split; [exact Hc|exact Hl].
Defined.

Lemma runMCPHost_builds_catalog_witness :
  let h := hostWith "ollama:llama3" "two" in
  let p := {| providerName := "ollama"; providerModel := "llama3" |} in
  let config := {| MCPServers := [("a", server "ok"); ("c", server "ok")] |} in
  let clients := <[ "c" := {| pid := 1; command := "ok" |} ]>
                   {[ "a" := {| pid := 0; command := "ok" |} ]} in
  provide (environ h) (vars h) (modelFlag (vars h)) = (Some p, None) ∧
  load (fsys h) (vars h) = (fsys h, (Some config, None)) ∧
  NoDup (MCPServers config).*1 ∧
  (createMCPClients startError initializeError (environ h) config
                    (procs h) (vars h)).2 = inr clients ∧
  ∃ h', host h = (h', HostReturned None) ∧
        modelMcpClients (vars h') = clients ∧
        modelTools (vars h') = catalogOf listTools (range clients).
Proof.
  intros h p config clients.
  assert (NoDup (MCPServers config).*1) as Hnd
    by (apply (bool_decide_unpack _); by vm_compute).
  assert ((createMCPClients startError initializeError (environ h) config
                            (procs h) (vars h)).2 = inr clients) as Hreg
    by (by vm_compute).
  split; [reflexivity|]. split; [reflexivity|]. split; [exact Hnd|].
  split; [exact Hreg|].
  destruct (runMCPHost_builds_catalog anthropicNew ollamaNew openaiNew
              home join render parse startError initializeError listTools
              range range_all h p (fsys h) config clients eq_refl eq_refl
              Hnd Hreg)
    as (h' & Hr & _ & _ & Hc & _ & _ & Ht).
  exists h'. split; [exact Hr|]. split; [exact Hc|exact Ht].
Defined.

Lemma main_without_model_serves_errors_witness :
  let h := hostWith "" "two" in
  Contains (Getenv (godotenvLoad None (environ h)).1 "MCP_MODEL") ":" = false ∧
  ∃ h', entry None h = Some h' ∧ procs h' = procs h ∧
        ∃ s, promptHandler marshal unmarshal (backend []) fsTools 1 "hi" O
                           (vars h')
             = (s, Some (inl "Error executing prompt: model provider not initialized")) ∧
             trace s = [].
Proof.
  intros h. split; [reflexivity|].
  destruct (main_without_model_serves_errors marshal unmarshal (backend [])
              fsTools anthropicNew ollamaNew openaiNew home join render parse
              startError initializeError listTools range None h eq_refl)
    as (h' & Hr & _ & Hp & _ & Hserve).
  exists h'. split; [exact Hr|]. split; [exact Hp|].
  assert ("hi" ≠ "") as Hne by discriminate.
  destruct (Hserve O "hi" O Hne) as (s & Hs & _ & Ht).
  exists s. split; [exact Hs|exact Ht].
Defined.

Lemma catalog_name_routes_back_witness :
  let toolCall := call "c1" "fs__status" in
  let x := {| ToolName := "fs__status"; Description := "";
              InputSchema := InputSchema (tool "status") |} in
  x ∈ mcpToolsToAnthropicTools "fs" [tool "status"] ∧
  Contains ("fs" +:+ "_") "__" = false ∧
  Forall (fun t => Contains (ToolName t) "__" = false) [tool "status"] ∧
  GetName toolCall = ToolName x ∧
  modelMcpClients (globals (session idle)) !! "fs" = Some fsClient ∧
  unmarshal (marshal (GetArguments toolCall)) = inr "{}" ∧
  ∃ t, t ∈ [tool "status"] ∧
       trace (session (toolCallStep marshal unmarshal fsTools
                                    (turn "" [toolCall]) idle toolCall))
       = [Invoke "fs" fsClient (ToolName t) "{}"].
Proof.
  intros toolCall x.
  assert (x ∈ mcpToolsToAnthropicTools "fs" [tool "status"]) as Hx
    by (apply list_elem_of_singleton; reflexivity).
  assert (Forall (fun t => Contains (ToolName t) "__" = false) [tool "status"])
    as Ht by (repeat constructor).
  split; [exact Hx|]. split; [reflexivity|]. split; [exact Ht|].
  split; [reflexivity|]. split; [reflexivity|]. split; [reflexivity|].
  destruct (catalog_name_routes_back marshal unmarshal fsTools
              (turn "" [toolCall]) idle toolCall "fs" [tool "status"] x
              fsClient "{}" Hx eq_refl Ht eq_refl eq_refl eq_refl)
    as (t & Hin & _ & _ & Htr).
  exists t. split; [exact Hin|exact Htr].
Defined.

End MoreExamples.
